(** * SYMindX API extension: command dispatch over HTTP and WebSocket

    A shallow embedding of [ApiExtension]
    (mind-agents/src/modules/tools/skills/common.skills.ts): the
    authentication middleware, the route handlers of [setupRoutes], the
    dispatch helpers [processChatMessage], [getMemories], [storeMemory] and
    [executeAction], and the WebSocket callbacks of [setupWebSocketServer]
    with [handleWebSocketMessage] and [generateConnectionId].

    Conventions of the embedding.
    - An [async] method is a computation in the monad [M]: it threads the
      state of the extension and of its environment and ends in a value
      ([Ret]), in a raised error ([Throw]) or never ([Pending], an awaited
      promise that never settles).
    - [Date.now()] and [new Date()] read a logical clock in milliseconds that
      only moves while an awaited collaborator runs.
    - [Math.random().toString(36)] is drawn from an oracle in its rendered
      form (such as "0.4fzyo82mvyr").
    - [ws.send], [res.json] and the calls into the agent's collaborators
      (portal, memory provider, extension actions) are recorded in logs, so
      that "how many replies" and "was a handler invoked" are statements
      about the final state.
    - A [Map] is a finite map. A plain object used as a dictionary is a
      finite map over its own keys, read through [getProperty], which also
      finds the members every plain object inherits. *)

From Stdlib Require Import ZArith NArith QArith.
From stdpp Require Import base option gmap strings list fin_maps pretty.

Local Open Scope string_scope.
Local Open Scope Z_scope.

(** ** Values crossing the boundary *)

(** JSON payloads that the extension forwards without inspecting them. *)
Inductive JsValue :=
  | JNull
  | JBool (b : bool)
  | JNum (n : Z)
  | JStr (s : string).

(** A value caught by [catch]: an [Error] object with its [message], or any
    other thrown value together with its [String(err)] rendering. *)
Inductive Thrown :=
  | ErrorObject (message : string)
  | OtherValue (rendering : string).

(** [err instanceof Error ? err.message : String(err)] *)
Definition errorText (err : Thrown) : string :=
  match err with
  | ErrorObject message => message
  | OtherValue rendering => rendering
  end.

(** How an awaited promise of a collaborator ends: fulfilled or rejected
    after some milliseconds, or never. *)
Inductive Settle (A : Type) :=
  | Resolves (elapsed : N) (value : A)
  | Rejects (elapsed : N) (err : Thrown)
  | NeverSettles.
Arguments Resolves {A} elapsed value.
Arguments Rejects {A} elapsed err.
Arguments NeverSettles {A}.

(** ** The agent and its collaborators (types/agent.js) *)

(** The [result] of an action is [any]: a JSON value, or a value that
    [JSON.stringify] refuses (an object with a cycle, a BigInt). *)
Inductive ResultValue :=
  | Json (v : JsValue)
  | NotJson.

Record ActionResult := {
  res_success : bool;
  res_result : option ResultValue;
  res_error : option string
}.

(** [ExtensionAction.execute(agent, parameters)]; the agent argument is the
    one the action is registered under. [parameters] is [any]: an object, or
    [None] for [null] and [undefined], on which reading a property raises. *)
Record ExtensionAction := {
  execute : option (gmap string JsValue) -> Settle ActionResult
}.

Record Extension := {
  ext_id : string;
  ext_enabled : bool;
  actions : gmap string ExtensionAction
}.

Record ChatMessage := {
  role : string;
  content : option string
}.

Record ChatResult := {
  message_content : string;
  usage_totalTokens : option Z
}.

Record Portal := {
  generateChat : list ChatMessage -> option Z -> Settle ChatResult
}.

Record MemoryRecord := {
  mem_id : string;
  mem_agentId : string;
  mem_type : string;
  mem_content : string;
  mem_metadata : gmap string JsValue;
  mem_importance : Q;
  mem_timestamp : Z;
  mem_tags : list string;
  mem_duration : string
}.

Record MemoryProvider := {
  retrieve : string -> string -> Z -> Settle (list MemoryRecord);
  store : string -> MemoryRecord -> Settle unit
}.

Record Agent := {
  agent_id : string;
  portal : option Portal;
  memory : MemoryProvider;
  extensions : list Extension
}.

(** ** Requests and responses (./types.js) *)

Record ChatRequest := {
  chat_message : option string;
  chat_maxTokens : option Z;
  chat_sessionId : option string
}.

Record ChatMetadata := {
  tokensUsed : option Z;
  processingTime : Z
}.

Record ChatResponse := {
  response : string;
  sessionId : option string;
  chat_timestamp : Z;
  metadata : option ChatMetadata
}.

Record MemoryRequest := {
  req_type : option string;
  req_content : string;
  req_metadata : option (gmap string JsValue)
}.

Record MemoryResponse := {
  mr_success : bool;
  mr_id : string;
  mr_timestamp : Z;
  mr_error : option string
}.

(** The body of [POST /action]: [action] is the property key that
    [request.action] stands for, [parameters] the object given, if any. *)
Record ActionRequest := {
  action : string;
  parameters : option (gmap string JsValue)
}.

Record ActionResponse := {
  success : bool;
  result : option ResultValue;
  error : option string;
  executionTime : Z
}.

(** What a route hands to [res.json]. *)
Inductive Body :=
  | ErrorBody (error : string)
  | ChatBody (r : ChatResponse)
  | MemoriesBody (memories : list MemoryRecord)
  | MemoryBody (r : MemoryResponse)
  | ActionBody (r : ActionResponse).

Record HttpResponse := {
  status : Z;
  body : Body
}.

(** A parsed WebSocket frame. [JSON.parse] may yield [null], on which any
    property access raises; otherwise [type] is the string found under that
    key, if any, and [data] the payload. *)
Inductive WebSocketMessage :=
  | NullMessage
  | Message (type : option string) (data : option string).

(** The bytes of a frame: text that [JSON.parse] rejects, or a parsed one. *)
Inductive RawFrame :=
  | Unparsable
  | Parsed (message : WebSocketMessage).

(** What the server passes to [ws.send] (after [JSON.stringify]). *)
Inductive WsReply :=
  | Welcome (connectionId : string) (timestamp : Z)
  | Pong (timestamp : Z)
  | ChatResponseMsg (data : ChatResponse)
  | ErrorMsg (error : string).

(** The [type] discriminator of a reply; the error replies carry none. *)
Definition replyType (r : WsReply) : option string :=
  match r with
  | Welcome _ _ => Some "welcome"
  | Pong _ => Some "pong"
  | ChatResponseMsg _ => Some "chat_response"
  | ErrorMsg _ => None
  end.

(** A socket is known by a handle. *)
Definition WebSocket := nat.

(** Calls that leave the extension. *)
Inductive Call :=
  | CallGenerateChat (messages : list ChatMessage) (maxTokens : option Z)
  | CallRetrieve (agentId query : string) (limit : Z)
  | CallStore (agentId : string) (record : MemoryRecord)
  | CallExecute (extension name : string) (params : gmap string JsValue).

(** ** Settings (the part of [ApiSettings] read by the code below) *)

Record ApiSettings := {
  rateLimit_enabled : bool;
  rateLimit_windowMs : Z;
  rateLimit_maxRequests : Z;
  auth_enabled : bool;
  auth_secret : string
}.

(** The rate-limit and auth part of [getDefaultSettings], for a given
    [process.env.API_SECRET]. *)
Definition getDefaultSettings (API_SECRET : option string) : ApiSettings :=
  {| rateLimit_enabled := true;
     rateLimit_windowMs := 60000;
     rateLimit_maxRequests := 100;
     auth_enabled := false;
     auth_secret := match API_SECRET with
                    | Some s => if String.eqb s "" then "default-secret" else s
                    | None => "default-secret"
                    end |}.

(** ** State *)

Record RateWindow := {
  windowStart : Z;
  count : Z
}.

Record State := {
  agent : option Agent;                  (* this.agent *)
  connections : gmap string WebSocket;   (* this.connections *)
  clock : Z;                             (* Date.now() *)
  random : nat -> string;                (* Math.random().toString(36), by draw *)
  drawn : nat;                           (* draws made so far *)
  windows : gmap string RateWindow;      (* store of the rate limiter *)
  sent : list (WebSocket * WsReply);     (* ws.send, oldest first *)
  responses : list HttpResponse;         (* writes on the request's res *)
  calls : list Call                      (* collaborator calls, oldest first *)
}.

(** ** The monad of asynchronous methods *)

Inductive Outcome (A : Type) :=
  | Ret (a : A)
  | Throw (err : Thrown)
  | Pending.
Arguments Ret {A} a.
Arguments Throw {A} err.
Arguments Pending {A}.

Definition M (A : Type) : Type := State -> Outcome A * State.

Global Instance M_ret : MRet M := fun A a st => (Ret a, st).

Global Instance M_bind : MBind M := fun A B f m st =>
  match m st with
  | (Ret a, st') => f a st'
  | (Throw err, st') => (Throw err, st')
  | (Pending, st') => (Pending, st')
  end.

(** [try { body } catch (err) { handler }] *)
Definition tryCatch {A} (body : M A) (handler : Thrown -> M A) : M A :=
  fun st =>
    match body st with
    | (Throw err, st') => handler err st'
    | other => other
    end.

Definition throw {A} (err : Thrown) : M A := fun st => (Throw err, st).

Definition getState : M State := fun st => (Ret st, st).

Definition modifyState (f : State -> State) : M unit := fun st => (Ret tt, f st).

Definition advance (elapsed : N) (st : State) : State :=
  {| agent := agent st; connections := connections st;
     clock := clock st + Z.of_N elapsed;
     random := random st; drawn := drawn st; windows := windows st;
     sent := sent st; responses := responses st; calls := calls st |}.

Definition logCall (c : Call) (st : State) : State :=
  {| agent := agent st; connections := connections st; clock := clock st;
     random := random st; drawn := drawn st; windows := windows st;
     sent := sent st; responses := responses st; calls := calls st ++ [c] |}.

Definition logSend (ws : WebSocket) (r : WsReply) (st : State) : State :=
  {| agent := agent st; connections := connections st; clock := clock st;
     random := random st; drawn := drawn st; windows := windows st;
     sent := sent st ++ [(ws, r)]; responses := responses st; calls := calls st |}.

Definition logResponse (r : HttpResponse) (st : State) : State :=
  {| agent := agent st; connections := connections st; clock := clock st;
     random := random st; drawn := drawn st; windows := windows st;
     sent := sent st; responses := responses st ++ [r]; calls := calls st |}.

Definition setConnections (c : gmap string WebSocket) (st : State) : State :=
  {| agent := agent st; connections := c; clock := clock st;
     random := random st; drawn := drawn st; windows := windows st;
     sent := sent st; responses := responses st; calls := calls st |}.

Definition setWindows (w : gmap string RateWindow) (st : State) : State :=
  {| agent := agent st; connections := connections st; clock := clock st;
     random := random st; drawn := drawn st; windows := w;
     sent := sent st; responses := responses st; calls := calls st |}.

Definition nextDraw (st : State) : State :=
  {| agent := agent st; connections := connections st; clock := clock st;
     random := random st; drawn := S (drawn st); windows := windows st;
     sent := sent st; responses := responses st; calls := calls st |}.

(** [await promise], where the promise comes from the collaborator call [c] *)
Definition await {A} (c : Call) (promise : Settle A) : M A :=
  fun st =>
    let st := logCall c st in
    match promise with
    | Resolves elapsed value => (Ret value, advance elapsed st)
    | Rejects elapsed err => (Throw err, advance elapsed st)
    | NeverSettles => (Pending, st)
    end.

(** [Date.now()] *)
Definition dateNow : M Z := fun st => (Ret (clock st), st).

(** [Math.random().toString(36)] *)
Definition mathRandom36 : M string :=
  fun st => (Ret (random st (drawn st)), nextDraw st).

(** [ws.send(JSON.stringify(r))] *)
Definition wsSend (ws : WebSocket) (r : WsReply) : M unit :=
  modifyState (logSend ws r).

(** Whether [JSON.stringify] accepts the body. *)
Definition serializable (b : Body) : bool :=
  match b with
  | ActionBody r =>
      match result r with
      | Some NotJson => false
      | _ => true
      end
  | _ => true
  end.

(** [res.status(code).json(b)]; [res.json(b)] is the case of status 200.
    [JSON.stringify] raises on a body it refuses, before anything is sent. *)
Definition resStatusJson (code : Z) (b : Body) : M unit :=
  if serializable b
  then modifyState (logResponse {| status := code; body := b |})
  else throw (ErrorObject "Converting circular structure to JSON").

Definition resJson (b : Body) : M unit := resStatusJson 200 b.

(** A string is truthy unless it is missing or empty. *)
Definition truthy (s : option string) : bool :=
  match s with
  | Some s => negb (String.eqb s "")
  | None => false
  end.

(** ** Dispatch helpers *)

Definition thisAgent : M (option Agent) := fun st => (Ret (agent st), st).

(** [processChatMessage(request)] *)
Definition processChatMessage (request : ChatRequest) : M ChatResponse :=
  this_agent ← thisAgent;
  match this_agent with
  | None =>
      now ← dateNow;
      mret {| response := "Agent not initialized"; sessionId := None;
              chat_timestamp := now; metadata := None |}
  | Some a =>
      match portal a with
      | None =>
          now ← dateNow;
          mret {| response := "No portal configured for agent"; sessionId := None;
                  chat_timestamp := now; metadata := None |}
      | Some p =>
          let messages := [ {| role := "user"; content := chat_message request |} ] in
          start ← dateNow;
          tryCatch
            (result ← await (CallGenerateChat messages (chat_maxTokens request))
                            (generateChat p messages (chat_maxTokens request));
             now ← dateNow;
             mret {| response := message_content result;
                     sessionId := chat_sessionId request;
                     chat_timestamp := now;
                     metadata := Some {| tokensUsed := usage_totalTokens result;
                                         processingTime := now - start |} |})
            (fun _ =>
               now ← dateNow;
               mret {| response := "Failed to process chat";
                       sessionId := chat_sessionId request;
                       chat_timestamp := now;
                       metadata := Some {| tokensUsed := None;
                                           processingTime := now - start |} |})
      end
  end.

(** [getMemories()] *)
Definition getMemories : M (list MemoryRecord) :=
  this_agent ← thisAgent;
  match this_agent with
  | None => mret []
  | Some a =>
      tryCatch
        (await (CallRetrieve (agent_id a) "recent" 20)
               (retrieve (memory a) (agent_id a) "recent" 20))
        (fun _ => mret [])
  end.

(** [s.slice(from, to)] and [s.substring(from, to)] for [0 <= from <= to] *)
Definition slice (from to : nat) (s : string) : string :=
  String.substring from (to - from) s.

(** [storeMemory(request)] *)
Definition storeMemory (request : MemoryRequest) : M MemoryResponse :=
  this_agent ← thisAgent;
  match this_agent with
  | None =>
      now ← dateNow;
      mret {| mr_success := false; mr_id := ""; mr_timestamp := now;
              mr_error := Some "Agent not initialized" |}
  | Some a =>
      now ← dateNow;
      r ← mathRandom36;
      let memory_ :=
        {| mem_id := "mem_" +:+ pretty now +:+ "_" +:+ slice 2 8 r;
           mem_agentId := agent_id a;
           mem_type := if truthy (req_type request)
                       then default "experience" (req_type request)
                       else "experience";
           mem_content := req_content request;
           mem_metadata := default ∅ (req_metadata request);
           mem_importance := (1 # 2)%Q;
           mem_timestamp := now;
           mem_tags := [];
           mem_duration := "long_term" |} in
      tryCatch
        (await (CallStore (agent_id a) memory_) (store (memory a) (agent_id a) memory_);;
         mret {| mr_success := true; mr_id := mem_id memory_;
                 mr_timestamp := mem_timestamp memory_; mr_error := None |})
        (fun err =>
           mret {| mr_success := false; mr_id := mem_id memory_;
                   mr_timestamp := mem_timestamp memory_;
                   mr_error := Some (errorText err) |})
  end.

(** The names that every plain object inherits from [Object.prototype]. *)
Definition objectPrototypeKeys : list string :=
  [ "constructor"; "__defineGetter__"; "__defineSetter__"; "hasOwnProperty";
    "__lookupGetter__"; "__lookupSetter__"; "isPrototypeOf";
    "propertyIsEnumerable"; "toString"; "valueOf"; "__proto__";
    "toLocaleString" ].

(** What [ext.actions[name]] finds: an action of the extension's own, or an
    inherited member, which is truthy and has no [execute]. *)
Inductive Property :=
  | OwnAction (action_ : ExtensionAction)
  | Inherited.

(** [actions[name]] on a plain object: own keys first, then the prototype. *)
Definition getProperty (actions_ : gmap string ExtensionAction) (name : string)
    : option Property :=
  match actions_ !! name with
  | Some action_ => Some (OwnAction action_)
  | None => if bool_decide (name ∈ objectPrototypeKeys) then Some Inherited else None
  end.

(** The [for (const ext of this.agent.extensions)] loop of [executeAction]:
    the first extension for which [ext.actions[request.action]] is truthy
    ends the loop with the outcome, returned or raised, of calling its
    [execute]; calling the missing [execute] of an inherited member raises a
    TypeError inside the [try]. *)
Fixpoint executeAction_loop (exts : list Extension) (request : ActionRequest)
    (start : Z) : M ActionResponse :=
  match exts with
  | [] =>
      now ← dateNow;
      mret {| success := false; result := None;
              error := Some ("Action '" +:+ action request +:+ "' not found");
              executionTime := now - start |}
  | ext :: rest =>
      match getProperty (actions ext) (action request) with
      | Some property =>
          let params := default ∅ (parameters request) in
          tryCatch
            (res ← match property with
                   | OwnAction action_ =>
                       await (CallExecute (ext_id ext) (action request) params)
                             (execute action_ (Some params))
                   | Inherited =>
                       throw (ErrorObject "action.execute is not a function")
                   end;
             now ← dateNow;
             mret {| success := res_success res; result := res_result res;
                     error := res_error res; executionTime := now - start |})
            (fun err =>
               now ← dateNow;
               mret {| success := false; result := None;
                       error := Some (errorText err);
                       executionTime := now - start |})
      | None => executeAction_loop rest request start
      end
  end.

(** [executeAction(request)] *)
Definition executeAction (request : ActionRequest) : M ActionResponse :=
  this_agent ← thisAgent;
  match this_agent with
  | None =>
      mret {| success := false; result := None;
              error := Some "Agent not initialized"; executionTime := 0 |}
  | Some a =>
      start ← dateNow;
      executeAction_loop (extensions a) request start
  end.

(** ** Routes ([setupRoutes]) *)

(** [POST /chat] *)
Definition postChat (chatRequest : ChatRequest) : M unit :=
  tryCatch
    (if negb (truthy (chat_message chatRequest))
     then resStatusJson 400 (ErrorBody "Message is required")
     else r ← processChatMessage chatRequest; resJson (ChatBody r))
    (fun _ => resStatusJson 500 (ErrorBody "Internal server error")).

(** [GET /memory] *)
Definition getMemory : M unit :=
  tryCatch
    (memories ← getMemories; resJson (MemoriesBody memories))
    (fun _ => resStatusJson 500 (ErrorBody "Failed to retrieve memories")).

(** [POST /memory] *)
Definition postMemory (memoryRequest : MemoryRequest) : M unit :=
  tryCatch
    (r ← storeMemory memoryRequest; resJson (MemoryBody r))
    (fun _ => resStatusJson 500 (ErrorBody "Failed to store memory")).

(** [POST /action] *)
Definition postAction (actionRequest : ActionRequest) : M unit :=
  tryCatch
    (r ← executeAction actionRequest; resJson (ActionBody r))
    (fun _ => resStatusJson 500 (ErrorBody "Failed to execute action")).

Inductive Route :=
  | PostChat (chatRequest : ChatRequest)
  | GetMemory
  | PostMemory (memoryRequest : MemoryRequest)
  | PostAction (actionRequest : ActionRequest).

Definition route (r : Route) : M unit :=
  match r with
  | PostChat chatRequest => postChat chatRequest
  | GetMemory => getMemory
  | PostMemory memoryRequest => postMemory memoryRequest
  | PostAction actionRequest => postAction actionRequest
  end.

(** ** WebSocket server ([setupWebSocketServer]) *)

(** [generateConnectionId()] *)
Definition generateConnectionId : M string :=
  r ← mathRandom36;
  mret (slice 2 15 r).

(** The [connection] callback: register the socket and greet it. *)
Definition onConnection (ws : WebSocket) : M string :=
  connectionId ← generateConnectionId;
  modifyState (fun st => setConnections (<[connectionId := ws]> (connections st)) st);;
  now ← dateNow;
  wsSend ws (Welcome connectionId now);;
  mret connectionId.

(** [handleWebSocketMessage(connectionId, message)] *)
Definition handleWebSocketMessage (connectionId : string)
    (message : WebSocketMessage) : M unit :=
  st ← getState;
  match connections st !! connectionId with
  | None => mret tt
  | Some ws =>
      tryCatch
        (match message with
         | NullMessage =>
             throw (ErrorObject "Cannot read properties of null (reading 'type')")
         | Message type data =>
             if bool_decide (type = Some "ping") then
               now ← dateNow;
               wsSend ws (Pong now)
             else if bool_decide (type = Some "chat") then
               r ← processChatMessage {| chat_message := data;
                                         chat_maxTokens := None;
                                         chat_sessionId := None |};
               wsSend ws (ChatResponseMsg r)
             else
               wsSend ws (ErrorMsg "Unknown message type")
         end)
        (fun _ => wsSend ws (ErrorMsg "Failed to process message"))
  end.

(** [JSON.parse(data.toString())] *)
Definition jsonParse (data : RawFrame) : M WebSocketMessage :=
  match data with
  | Unparsable => throw (ErrorObject "Unexpected token in JSON")
  | Parsed message => mret message
  end.

(** The [message] callback of the socket [ws] registered as [connectionId]. *)
Definition onMessage (connectionId : string) (ws : WebSocket) (data : RawFrame) : M unit :=
  tryCatch
    (message ← jsonParse data;
     handleWebSocketMessage connectionId message)
    (fun _ => wsSend ws (ErrorMsg "Invalid message format")).

(** The [close] callback: [this.connections.delete(connectionId)]. *)
Definition onClose (connectionId : string) : M unit :=
  modifyState (fun st => setConnections (delete connectionId (connections st)) st).

(** The [error] callback deletes the entry as well. *)
Definition onError (connectionId : string) : M unit :=
  modifyState (fun st => setConnections (delete connectionId (connections st)) st).

(** [handleWebSocketMessage] in a run in which callbacks of other events (a
    [close] of this or another socket, a new connection) fire while the chat
    reply is awaited, changing the state by [meanwhile]. What follows the
    [await] goes on with the socket [ws] fetched before it. *)
Definition handleWebSocketMessageWhile (meanwhile : State -> State)
    (connectionId : string) (message : WebSocketMessage) : M unit :=
  st ← getState;
  match connections st !! connectionId with
  | None => mret tt
  | Some ws =>
      tryCatch
        (match message with
         | NullMessage =>
             throw (ErrorObject "Cannot read properties of null (reading 'type')")
         | Message type data =>
             if bool_decide (type = Some "ping") then
               now ← dateNow;
               wsSend ws (Pong now)
             else if bool_decide (type = Some "chat") then
               r ← processChatMessage {| chat_message := data;
                                         chat_maxTokens := None;
                                         chat_sessionId := None |};
               modifyState meanwhile;;
               wsSend ws (ChatResponseMsg r)
             else
               wsSend ws (ErrorMsg "Unknown message type")
         end)
        (fun _ => wsSend ws (ErrorMsg "Failed to process message"))
  end.

(** ** Middleware ([setupMiddleware]) *)

Record HttpRequest := {
  authorization : option string;   (* req.headers.authorization *)
  clientKey : string;              (* the key the limiter counts under *)
  target : Route
}.

(** An express middleware either answers on [res] or calls [next]. *)
Definition Middleware : Type := HttpRequest -> M unit -> M unit.

(** [s.substring(n)] *)
Definition substringFrom (n : nat) (s : string) : string :=
  String.substring n (String.length s - n) s.

(** [authMiddleware(req, res, next)] *)
Definition authMiddleware (apiConfig : ApiSettings) : Middleware :=
  fun req next =>
    match authorization req with
    | None => resStatusJson 401 (ErrorBody "Unauthorized")
    | Some authHeader =>
        if negb (truthy (Some authHeader)) || negb (String.prefix "Bearer " authHeader)
        then resStatusJson 401 (ErrorBody "Unauthorized")
        else
          let token := substringFrom 7 authHeader in
          if negb (String.eqb token (auth_secret apiConfig))
          then resStatusJson 401 (ErrorBody "Invalid token")
          else next
    end.

Inductive ErrorKind :=
  | NOT_FOUND | UNAUTHORIZED | RATE_LIMITED | BAD_INPUT
  | HANDLER_FAILURE | TIMEOUT | INTERNAL.

Inductive Admission :=
  | Allow
  | Deny (kind : ErrorKind).

(** Modelled from the spec: the counter behind the rate limiter. The source
    builds the limiter with [rateLimit({windowMs, max, ...})] of the
    express-rate-limit package, whose store is not part of the sources, and
    its own [rateLimiters] map is declared but never read or written. Per
    client key: when there is no window, or [now >= windowStart +
    windowSizeMs], a fresh window starts at [now] with count 1; otherwise the
    count is incremented; the call is denied when the count after that
    exceeds [maxRequests], and the window is recorded either way. *)
Definition admitRate (apiConfig : ApiSettings) (key : string) (now : Z)
    (store : gmap string RateWindow) : Admission * gmap string RateWindow :=
  let fresh := {| windowStart := now; count := 1 |} in
  let w :=
    match store !! key with
    | None => fresh
    | Some w =>
        if bool_decide (windowStart w + rateLimit_windowMs apiConfig ≤ now)%Z
        then fresh
        else {| windowStart := windowStart w; count := count w + 1 |}
    end in
  (if bool_decide (rateLimit_maxRequests apiConfig < count w)%Z
   then Deny RATE_LIMITED else Allow,
   <[key := w]> store).

(** A sequence of calls [(key, now)], oldest first. *)
Fixpoint admitMany (apiConfig : ApiSettings) (reqs : list (string * Z))
    (store : gmap string RateWindow) : list Admission * gmap string RateWindow :=
  match reqs with
  | [] => ([], store)
  | (key, now) :: rest =>
      let '(d, store') := admitRate apiConfig key now store in
      let '(ds, store'') := admitMany apiConfig rest store' in
      (d :: ds, store'')
  end.

(** The limiter as a middleware, answering 429 with the configured message. *)
Definition rateLimitMiddleware (apiConfig : ApiSettings) : Middleware :=
  fun req next =>
    now ← dateNow;
    st ← getState;
    let '(d, store') := admitRate apiConfig (clientKey req) now (windows st) in
    modifyState (setWindows store');;
    match d with
    | Allow => next
    | Deny _ =>
        resStatusJson 429 (ErrorBody "Too many requests, please try again later.")
    end.

Definition rateLimitStage (apiConfig : ApiSettings) : list Middleware :=
  if rateLimit_enabled apiConfig then [rateLimitMiddleware apiConfig] else [].

Definition authStage (apiConfig : ApiSettings) : list Middleware :=
  if auth_enabled apiConfig then [authMiddleware apiConfig] else [].

(** The stack that [setupMiddleware] installs, in order (body parsing and
    CORS headers, which come first, do not bear on what follows). *)
Definition setupMiddleware (apiConfig : ApiSettings) : list Middleware :=
  rateLimitStage apiConfig ++ authStage apiConfig.

(** Express runs the stack in order; [final] is the matched route. *)
Fixpoint runMiddleware (stack : list Middleware) (req : HttpRequest)
    (final : M unit) : M unit :=
  match stack with
  | [] => final
  | mw :: rest => mw req (runMiddleware rest req final)
  end.

Definition serve (apiConfig : ApiSettings) (req : HttpRequest) : M unit :=
  runMiddleware (setupMiddleware apiConfig) req (route (target req)).

(** ** Concrete collaborators used in the examples *)

Definition okResult (v : JsValue) : ActionResult :=
  {| res_success := true; res_result := Some (Json v); res_error := None |}.

(** An action that answers after [elapsed] milliseconds. *)
Definition timedAction (elapsed : N) (v : JsValue) : ExtensionAction :=
  {| execute := fun _ => Resolves elapsed (okResult v) |}.

(** An action that raises [new Error(message)] at once. *)
Definition failingAction (message : string) : ExtensionAction :=
  {| execute := fun _ => Rejects 0 (ErrorObject message) |}.

(** An action whose promise never settles. *)
Definition stuckAction : ExtensionAction :=
  {| execute := fun _ => NeverSettles |}.

Definition demoExtension : Extension :=
  {| ext_id := "demo"; ext_enabled := true;
     actions := {[ "slow" := timedAction 200 (JStr "done");
                   "boom" := failingAction "kaput";
                   "stuck" := stuckAction ]} |}.

Definition idleMemory : MemoryProvider :=
  {| retrieve := fun _ _ _ => Resolves 0 [];
     store := fun _ _ => Resolves 0 tt |}.

Definition demoAgent : Agent :=
  {| agent_id := "agent-1"; portal := None; memory := idleMemory;
     extensions := [demoExtension] |}.

(** A state with the given agent and registry; every random draw renders
    as [draw]. *)
Definition initialState (a : option Agent) (registry : gmap string WebSocket)
    (draw : string) : State :=
  {| agent := a; connections := registry; clock := 1000;
     random := fun _ => draw; drawn := 0; windows := ∅;
     sent := []; responses := []; calls := [] |}.

(** * Vocabulary of the statements *)

(** What a helper leaves alone: the agent, the registry and both reply logs. *)
Record quiet (st st' : State) : Prop := {
  quiet_agent : agent st' = agent st;
  quiet_connections : connections st' = connections st;
  quiet_sent : sent st' = sent st;
  quiet_responses : responses st' = responses st
}.

Ltac unfold_M :=
  unfold mbind, M_bind, mret, M_ret, tryCatch, throw, await, dateNow, thisAgent,
    getState, modifyState, wsSend, resJson, resStatusJson, mathRandom36 in *.

(** The promise stays pending for ever. *)
Definition neverSettles {A} (p : Settle A) : bool :=
  match p with
  | NeverSettles => true
  | _ => false
  end.

(** The portal call that [processChatMessage] awaits for this request, if it
    awaits one, never settles. *)
Definition chatHangs (request : ChatRequest) (st : State) : bool :=
  match agent st with
  | Some a =>
      match portal a with
      | Some p =>
          neverSettles
            (generateChat p [ {| role := "user"; content := chat_message request |} ]
               (chat_maxTokens request))
      | None => false
      end
  | None => false
  end.

(** The retrieval that [getMemories] awaits, if it awaits one, never settles. *)
Definition memoriesHang (st : State) : bool :=
  match agent st with
  | Some a => neverSettles (retrieve (memory a) (agent_id a) "recent" 20)
  | None => false
  end.

(** The record that [storeMemory] builds from a request. *)
Definition memoryRecord (a : Agent) (request : MemoryRequest) (st : State) : MemoryRecord :=
  {| mem_id := "mem_" +:+ pretty (clock st) +:+ "_" +:+ slice 2 8 (random st (drawn st));
     mem_agentId := agent_id a;
     mem_type := if truthy (req_type request)
                 then default "experience" (req_type request) else "experience";
     mem_content := req_content request;
     mem_metadata := default ∅ (req_metadata request);
     mem_importance := (1 # 2)%Q;
     mem_timestamp := clock st;
     mem_tags := [];
     mem_duration := "long_term" |}.

(** The store call that [storeMemory] awaits, if it awaits one, never
    settles. *)
Definition storeHangs (request : MemoryRequest) (st : State) : bool :=
  match agent st with
  | Some a => neverSettles (store (memory a) (agent_id a) (memoryRecord a request st))
  | None => false
  end.

(** The first extension, in order, for which [ext.actions[name]] is truthy,
    with what is found there. *)
Fixpoint resolveAction (exts : list Extension) (name : string)
    : option (Extension * Property) :=
  match exts with
  | [] => None
  | ext :: rest =>
      match getProperty (actions ext) name with
      | Some property => Some (ext, property)
      | None => resolveAction rest name
      end
  end.

(** The action that [executeAction] runs for this request, if it runs one,
    never settles. *)
Definition actionHangs (request : ActionRequest) (st : State) : bool :=
  match agent st with
  | Some a =>
      match resolveAction (extensions a) (action request) with
      | Some (_, OwnAction act) =>
          neverSettles (execute act (Some (default ∅ (parameters request))))
      | _ => false
      end
  | None => false
  end.

(** The collaborator call that the route handler awaits for this request,
    if it awaits one, never settles. *)
Definition routeHangs (r : Route) (st : State) : bool :=
  match r with
  | PostChat chatRequest => truthy (chat_message chatRequest) && chatHangs chatRequest st
  | GetMemory => memoriesHang st
  | PostMemory memoryRequest => storeHangs memoryRequest st
  | PostAction actionRequest => actionHangs actionRequest st
  end.

(** The same for a frame: only a 'chat' frame awaits anything. *)
Definition frameHangs (message : WebSocketMessage) (st : State) : bool :=
  match message with
  | NullMessage => false
  | Message type data =>
      bool_decide (type = Some "chat")
      && chatHangs {| chat_message := data; chat_maxTokens := None;
                      chat_sessionId := None |} st
  end.

(** For no extension in [exts] does [ext.actions[name]] find anything:
    none owns an action of that name, and the name is not that of an
    inherited member. *)
Definition unregistered (name : string) (exts : list Extension) : Prop :=
  Forall (fun ext => getProperty (actions ext) name = None) exts.

(** The response built from what the action's promise does. *)
Definition actionOutcome (ext : Extension) (act : ExtensionAction)
    (request : ActionRequest) (start : Z) (st : State)
    : Outcome ActionResponse * State :=
  let params := default ∅ (parameters request) in
  let st1 := logCall (CallExecute (ext_id ext) (action request) params) st in
  match execute act (Some params) with
  | Resolves d res =>
      (Ret {| success := res_success res; result := res_result res;
              error := res_error res;
              executionTime := clock st + Z.of_N d - start |}, advance d st1)
  | Rejects d err =>
      (Ret {| success := false; result := None; error := Some (errorText err);
              executionTime := clock st + Z.of_N d - start |}, advance d st1)
  | NeverSettles => (Pending, st1)
  end.

(** The verdict of the limiter stage on a request, and the state it leaves:
    [Allow] and no change when the limiter is switched off. *)
Definition limited (apiConfig : ApiSettings) (req : HttpRequest) (st : State)
    : Admission * State :=
  if rateLimit_enabled apiConfig
  then
    let '(d, store') := admitRate apiConfig (clientKey req) (clock st) (windows st) in
    (d, setWindows store' st)
  else (Allow, st).

(** An initialized agent and one open connection ["abc"] on socket 7. *)
Definition demoState : State :=
  initialState (Some demoAgent) {[ "abc" := 7%nat ]} "0.i".

(** Before [init]: no agent, no connection. *)
Definition blankState : State := initialState None ∅ "0.i".

(** Every recorded window has counted at least one call. *)
Definition countsPositive (store : gmap string RateWindow) : Prop :=
  ∀ k w, store !! k = Some w -> 1 ≤ count w.

(** The limits of the scenario: 3 requests per 1000 ms. *)
Definition threePerSecond : ApiSettings :=
  {| rateLimit_enabled := true; rateLimit_windowMs := 1000;
     rateLimit_maxRequests := 3; auth_enabled := false; auth_secret := "" |}.

(** Authentication on with the secret "secret", rate limiting off. *)
Definition secured : ApiSettings :=
  {| rateLimit_enabled := false; rateLimit_windowMs := 60000;
     rateLimit_maxRequests := 100; auth_enabled := true; auth_secret := "secret" |}.

Definition requestWith (header : option string) : HttpRequest :=
  {| authorization := header; clientKey := "10.0.0.1";
     target := PostAction {| action := "slow"; parameters := None |} |}.



Definition hello : ChatRequest :=
  {| chat_message := Some "hello"; chat_maxTokens := None; chat_sessionId := None |}.

(** * Further parts of the sources *)

(** ** [ApiExtension]: settings, status and connection listing *)

(** The [rateLimit] and [auth] sections of a settings object. *)
Record RateLimitSettings := {
  rl_enabled : bool;
  rl_windowMs : Z;
  rl_maxRequests : Z
}.

Record AuthSettings := {
  au_enabled : bool;
  au_type : string;
  au_secret : string
}.

(** [config.settings]: each section is given whole or not at all. *)
Record SettingsOverride := {
  override_rateLimit : option RateLimitSettings;
  override_auth : option AuthSettings
}.

(** The constructor's [{ ...this.getDefaultSettings(), ...config.settings }]:
    a shallow spread, so a section of [config.settings] replaces the default
    section as a whole. *)
Definition constructSettings (API_SECRET : option string)
    (settings : option SettingsOverride) : ApiSettings :=
  let defaults := getDefaultSettings API_SECRET in
  let rateLimit := settings ≫= override_rateLimit in
  let auth := settings ≫= override_auth in
  {| rateLimit_enabled :=
       match rateLimit with Some r => rl_enabled r | None => rateLimit_enabled defaults end;
     rateLimit_windowMs :=
       match rateLimit with Some r => rl_windowMs r | None => rateLimit_windowMs defaults end;
     rateLimit_maxRequests :=
       match rateLimit with
       | Some r => rl_maxRequests r
       | None => rateLimit_maxRequests defaults
       end;
     auth_enabled :=
       match auth with Some a => au_enabled a | None => auth_enabled defaults end;
     auth_secret :=
       match auth with Some a => au_secret a | None => auth_secret defaults end |}.




Record ConnectionInfo := {
  info_id : string;
  info_readyState : Z;
  info_connectedAt : Z
}.

(** [getConnectionInfo()]; [readyState] gives each socket's [ws.readyState].
    The entries come in the order of the finite map, which is not the
    insertion order of the [Map]; what is stated below does not depend on
    the order. *)
Definition getConnectionInfo (readyState : WebSocket -> Z) : M (list ConnectionInfo) :=
  st ← getState;
  now ← dateNow;
  mret ((fun entry : string * WebSocket =>
           {| info_id := entry.1; info_readyState := readyState entry.2;
              info_connectedAt := now |})
          <$> map_to_list (connections st)).

(** ** [MessagingSkill] of the Telegram extension *)

(** JavaScript truthiness of a value that may be [undefined]. *)
Definition jsTruthy (v : option JsValue) : bool :=
  match v with
  | None => false
  | Some JNull => false
  | Some (JBool b) => b
  | Some (JNum n) => negb (n =? 0)
  | Some (JStr s) => negb (String.eqb s "")
  end.

(** The [Message] that [telegram.sendMessage] resolves to, as far as it is
    read: [message_id], [chat.id] and [text]. *)
Record TelegramMessage := {
  message_id : Z;
  chat_id : Z;
  message_text : option string
}.

(** The part of the Telegraf client that the skill calls. Arguments are
    whatever the caller passed ([any] at run time). *)
Record Telegram := {
  tg_sendMessage :
    option JsValue -> option JsValue -> gmap string JsValue -> Settle TelegramMessage;
  tg_editMessageText :
    option JsValue -> option JsValue -> option JsValue -> gmap string JsValue ->
    Settle JsValue;
  tg_deleteMessage : option JsValue -> option JsValue -> Settle bool;
  tg_pinChatMessage : option JsValue -> option JsValue -> option JsValue -> Settle bool;
  tg_unpinChatMessage : option JsValue -> option JsValue -> Settle bool
}.

(** What the skill hands to [createSuccessResult]. *)
Inductive SkillData :=
  | SentData (messageId chatId : Z) (text : option string)
  | DoneData (messageId chatId : option JsValue).

(** What the skill takes from elsewhere: [this.extension.getBot()], which
    returns the client or raises, the two result builders of
    [BaseTelegramSkill] (taken to return a result for every argument), the
    error type [TelegramErrorType.INVALID_REQUEST] and the five
    [TelegramActionType] keys. *)
Record SkillContext (ErrorType : Type) := {
  getBot : Thrown + Telegram;
  createSuccessResult : SkillData -> ActionResult;
  createErrorResult : Thrown -> ErrorType -> ActionResult;
  INVALID_REQUEST : ErrorType;
  SEND_MESSAGE : string;
  EDIT_MESSAGE : string;
  DELETE_MESSAGE : string;
  PIN_MESSAGE : string;
  UNPIN_MESSAGE : string
}.
Arguments getBot {ErrorType} _.
Arguments createSuccessResult {ErrorType} _ _.
Arguments createErrorResult {ErrorType} _ _ _.
Arguments INVALID_REQUEST {ErrorType} _.
Arguments SEND_MESSAGE {ErrorType} _.
Arguments EDIT_MESSAGE {ErrorType} _.
Arguments DELETE_MESSAGE {ErrorType} _.
Arguments PIN_MESSAGE {ErrorType} _.
Arguments UNPIN_MESSAGE {ErrorType} _.

(** [try { const bot = getBot(); const r = await call(bot); return ok(r) }
     catch (error) { return createErrorResult(error, INVALID_REQUEST) }] *)
Definition guarded {ErrorType A} (this : SkillContext ErrorType)
    (call : Telegram -> Settle A) (ok : A -> SkillData) : Settle ActionResult :=
  match getBot this with
  | inl err => Resolves 0 (createErrorResult this err (INVALID_REQUEST this))
  | inr bot =>
      match call bot with
      | Resolves elapsed r => Resolves elapsed (createSuccessResult this (ok r))
      | Rejects elapsed err =>
          Resolves elapsed (createErrorResult this err (INVALID_REQUEST this))
      | NeverSettles => NeverSettles
      end
  end.

(** [if (value) options[key] = value] *)
Definition setIfTruthy (key : string) (value : option JsValue)
    (options : gmap string JsValue) : gmap string JsValue :=
  match value with
  | Some v => if jsTruthy value then <[key := v]> options else options
  | None => options
  end.

(** The [options] object that [sendMessage] builds. *)
Definition sendOptions (parseMode disableWebPagePreview disableNotification
    replyToMessageId : option JsValue) : gmap string JsValue :=
  setIfTruthy "reply_to_message_id" replyToMessageId
    (setIfTruthy "disable_notification" disableNotification
       (setIfTruthy "disable_web_page_preview" disableWebPagePreview
          (setIfTruthy "parse_mode" parseMode ∅))).

(** [sendMessage(chatId, text, parseMode, disableWebPagePreview,
    disableNotification, replyToMessageId)] *)
Definition sendMessage {ErrorType} (this : SkillContext ErrorType)
    (chatId text parseMode disableWebPagePreview disableNotification
       replyToMessageId : option JsValue) : Settle ActionResult :=
  guarded this
    (fun bot =>
       tg_sendMessage bot chatId text
         (sendOptions parseMode disableWebPagePreview disableNotification replyToMessageId))
    (fun r => SentData (message_id r) (chat_id r) (message_text r)).

(** [editMessage(chatId, messageId, text, parseMode, disableWebPagePreview)] *)
Definition editMessage {ErrorType} (this : SkillContext ErrorType)
    (chatId messageId text parseMode disableWebPagePreview : option JsValue)
    : Settle ActionResult :=
  guarded this
    (fun bot =>
       tg_editMessageText bot chatId messageId text
         (setIfTruthy "disable_web_page_preview" disableWebPagePreview
            (setIfTruthy "parse_mode" parseMode ∅)))
    (fun _ => DoneData messageId chatId).

(** [deleteMessage(chatId, messageId)] *)
Definition deleteMessage {ErrorType} (this : SkillContext ErrorType)
    (chatId messageId : option JsValue) : Settle ActionResult :=
  guarded this (fun bot => tg_deleteMessage bot chatId messageId)
    (fun _ => DoneData messageId chatId).

(** [pinMessage(chatId, messageId, disableNotification)] *)
Definition pinMessage {ErrorType} (this : SkillContext ErrorType)
    (chatId messageId disableNotification : option JsValue) : Settle ActionResult :=
  guarded this (fun bot => tg_pinChatMessage bot chatId messageId disableNotification)
    (fun _ => DoneData messageId chatId).

(** [unpinMessage(chatId, messageId)] *)
Definition unpinMessage {ErrorType} (this : SkillContext ErrorType)
    (chatId messageId : option JsValue) : Settle ActionResult :=
  guarded this (fun bot => tg_unpinChatMessage bot chatId messageId)
    (fun _ => DoneData messageId chatId).

(** The arrow function of an action reads its arguments off [params]
    before it calls the method: on [null] or [undefined] that raises, and the
    promise of [execute] is rejected. *)
Definition withParams (params : option (gmap string JsValue))
    (run : gmap string JsValue -> Settle ActionResult) : Settle ActionResult :=
  match params with
  | Some params => run params
  | None => Rejects 0 (ErrorObject "Cannot read properties of undefined (reading 'chat_id')")
  end.

(** [getActions()]: the five actions under their [TelegramActionType] keys,
    later keys of the object literal overriding earlier equal ones. Of each
    action the [execute] function is kept. *)
Definition getActions {ErrorType} (this : SkillContext ErrorType)
    : gmap string ExtensionAction :=
  <[UNPIN_MESSAGE this :=
      {| execute := fun params => withParams params (fun params =>
           unpinMessage this (params !! "chat_id") (params !! "message_id")) |}]>
  (<[PIN_MESSAGE this :=
      {| execute := fun params => withParams params (fun params =>
           pinMessage this (params !! "chat_id") (params !! "message_id")
             (params !! "disable_notification")) |}]>
  (<[DELETE_MESSAGE this :=
      {| execute := fun params => withParams params (fun params =>
           deleteMessage this (params !! "chat_id") (params !! "message_id")) |}]>
  (<[EDIT_MESSAGE this :=
      {| execute := fun params => withParams params (fun params =>
           editMessage this (params !! "chat_id") (params !! "message_id")
             (params !! "text") (params !! "parse_mode")
             (params !! "disable_web_page_preview")) |}]>
  (<[SEND_MESSAGE this :=
      {| execute := fun params => withParams params (fun params =>
           sendMessage this (params !! "chat_id") (params !! "text")
             (params !! "parse_mode") (params !! "disable_web_page_preview")
             (params !! "disable_notification") (params !! "reply_to_message_id")) |}]>
   ∅)))).

(** ** Vocabulary and examples of the further properties *)

(** A portal that answers "pong" after 40 ms, using 5 tokens. *)
Definition echoPortal : Portal :=
  {| generateChat := fun _ _ =>
       Resolves 40 {| message_content := "pong"; usage_totalTokens := Some 5 |} |}.

(** A portal whose call fails after 15 ms. *)
Definition brokenPortal : Portal :=
  {| generateChat := fun _ _ => Rejects 15 (ErrorObject "upstream down") |}.

Definition agentWith (p : Portal) : Agent :=
  {| agent_id := "agent-1"; portal := Some p; memory := idleMemory;
     extensions := [demoExtension] |}.

Definition chatState (p : Portal) : State :=
  initialState (Some (agentWith p)) {[ "abc" := 7%nat ]} "0.i".




(** The same extensions, whatever their [enabled] flags. *)
Definition sameActions (exts exts' : list Extension) : Prop :=
  Forall2 (fun ext ext' => ext_id ext = ext_id ext' ∧ actions ext = actions ext')
          exts exts'.

Definition disable (ext : Extension) : Extension :=
  {| ext_id := ext_id ext; ext_enabled := false; actions := actions ext |}.

(** Two sockets registered one after the other. *)
Definition twoConnected (ws1 ws2 : WebSocket) (st : State) : State :=
  (onConnection ws2 (onConnection ws1 st).2).2.

Definition withAuth (secret : string) : option SettingsOverride :=
  Some {| override_rateLimit := None;
          override_auth := Some {| au_enabled := true; au_type := "bearer";
                                   au_secret := secret |} |}.

(** The result came out of one of the two builders of the skill. *)
Definition builtBy {ErrorType} (this : SkillContext ErrorType) (r : ActionResult) : Prop :=
  (∃ data, r = createSuccessResult this data)
  ∨ (∃ err, r = createErrorResult this err (INVALID_REQUEST this)).

(** A Telegram client whose calls fail, succeed or hang. *)
Definition demoTelegram : Telegram :=
  {| tg_sendMessage := fun _ _ _ => Rejects 120 (ErrorObject "chat not found");
     tg_editMessageText := fun _ _ _ _ => Resolves 80 (JBool true);
     tg_deleteMessage := fun _ _ => Resolves 60 true;
     tg_pinChatMessage := fun _ _ _ => NeverSettles;
     tg_unpinChatMessage := fun _ _ => Resolves 60 true |}.

(** A skill over the given bot, with error types named by strings. *)
Definition demoSkill (bot : Thrown + Telegram) : SkillContext string :=
  {| getBot := bot;
     createSuccessResult := fun _ =>
       {| res_success := true; res_result := None; res_error := None |};
     createErrorResult := fun err type =>
       {| res_success := false; res_result := None;
          res_error := Some (type +:+ ": " +:+ errorText err) |};
     INVALID_REQUEST := "INVALID_REQUEST";
     SEND_MESSAGE := "sendMessage";
     EDIT_MESSAGE := "editMessage";
     DELETE_MESSAGE := "deleteMessage";
     PIN_MESSAGE := "pinMessage";
     UNPIN_MESSAGE := "unpinMessage" |}.


Definition runningSkill : SkillContext string := demoSkill (inr demoTelegram).

(** The action registered under "sendMessage". *)
Definition sendAction (this : SkillContext string) : ExtensionAction :=
  default stuckAction (getActions this !! "sendMessage").

Definition telegramExtension : Extension :=
  {| ext_id := "telegram"; ext_enabled := true; actions := getActions runningSkill |}.

Definition telegramState : State :=
  initialState
    (Some {| agent_id := "agent-3"; portal := None; memory := idleMemory;
             extensions := [telegramExtension] |})
    ∅ "0.i".

(** A helper returns a value, or stays pending exactly when [hang] says so;
    it never raises and never replies by itself. *)
Definition runsUnless {A} (hang : bool) (m : M A) (st : State) : Prop :=
  if hang
  then ∃ st', m st = (Pending, st') ∧ quiet st st'
  else ∃ v st', m st = (Ret v, st') ∧ quiet st st'.

Ltac returned := do 2 eexists; split; [reflexivity | by constructor].

Ltac pending := eexists; split; [reflexivity | by constructor].

(** The failure that calling the missing [execute] of an inherited member
    ends in. *)
Definition notAFunction (start : Z) (st : State) : Outcome ActionResponse * State :=
  (Ret {| success := false; result := None;
          error := Some "action.execute is not a function";
          executionTime := clock st - start |}, st).

Definition notFound (request : ActionRequest) (start : Z) (st : State)
    : Outcome ActionResponse * State :=
  (Ret {| success := false; result := None;
          error := Some ("Action '" +:+ action request +:+ "' not found");
          executionTime := clock st - start |}, st).

(** The request that a 'chat' frame makes of its data. *)
Definition frameRequest (data : option string) : ChatRequest :=
  {| chat_message := data; chat_maxTokens := None; chat_sessionId := None |}.




(** Authentication on, and a limiter that lets one request through. *)
Definition limitedOnce : ApiSettings :=
  {| rateLimit_enabled := true; rateLimit_windowMs := 60000;
     rateLimit_maxRequests := 1; auth_enabled := true; auth_secret := "secret" |}.

Definition memoryRequestWith (header : option string) : HttpRequest :=
  {| authorization := header; clientKey := "10.0.0.1"; target := GetMemory |}.

(** The state after one request with the right token has been served. *)
Definition servedOnce : State :=
  (serve limitedOnce (memoryRequestWith (Some "Bearer secret")) demoState).2.

(** The [close] callback of connection "abc" fires while its chat reply is
    awaited. *)
Definition closedMeanwhile : State :=
  (handleWebSocketMessageWhile (fun st => (onClose "abc" st).2) "abc"
     (Message (Some "chat") (Some "hello")) (chatState echoPortal)).2.

(** An action whose result refers to itself. *)
Definition cyclicAction : ExtensionAction :=
  {| execute := fun _ =>
       Resolves 5 {| res_success := true; res_result := Some NotJson;
                     res_error := None |} |}.

Definition cyclicState : State :=
  initialState
    (Some {| agent_id := "agent-5"; portal := None; memory := idleMemory;
             extensions := [ {| ext_id := "loop"; ext_enabled := true;
                                actions := {[ "self" := cyclicAction ]} |} ] |})
    ∅ "0.i".

(** * Properties *)

(** ** Strings *)

Lemma substring_all (s : string) : String.substring 0 (String.length s) s = s.
Proof. induction s as [|c s IH]; simpl; [done | by rewrite IH]. Qed.

Lemma substringFrom_append (p s : string) :
  substringFrom (String.length p) (p +:+ s) = s.
Proof.
  unfold substringFrom. induction p as [|c p IH]; simpl.
  - rewrite Nat.sub_0_r. apply substring_all.
  - apply IH.
Qed.

Lemma prefix_append (p s : string) : String.prefix p (p +:+ s) = true.
Proof.
  induction p as [|c p IH]; simpl; [by destruct s |].
  destruct (Ascii.ascii_dec c c); [apply IH | done].
Qed.

Lemma prefix_split (p s : string) :
  String.prefix p s = true -> s = p +:+ substringFrom (String.length p) s.
Proof.
  unfold substringFrom. revert s. induction p as [|c p IH]; intros s Hp; simpl.
  - by rewrite Nat.sub_0_r, substring_all.
  - destruct s as [|d s]; simpl in Hp; [done |].
    destruct (Ascii.ascii_dec c d) as [->|]; [| done].
    change (String d p +:+ ?x) with (String d (p +:+ x)).
    f_equal. apply (IH s Hp).
Qed.

(** ** Authentication *)

Lemma authMiddleware_denies (apiConfig : ApiSettings) (req : HttpRequest)
    (next : M unit) (st : State) :
  authorization req ≠ Some ("Bearer " +:+ auth_secret apiConfig) ->
  ∃ msg, authMiddleware apiConfig req next st =
    (Ret tt, logResponse {| status := 401; body := ErrorBody msg |} st).
Proof.
  intros Hne. unfold authMiddleware.
  destruct (authorization req) as [authHeader|] eqn:Hh; [| by eexists].
  destruct (negb (truthy (Some authHeader)) || negb (String.prefix "Bearer " authHeader))
    eqn:Hguard; [by eexists |].
  apply orb_false_elim in Hguard as [_ Hpre].
  apply negb_false_iff in Hpre.
  destruct (String.eqb_spec (substringFrom 7 authHeader) (auth_secret apiConfig))
    as [Heq|Hdiff]; simpl; [| by eexists].
  exfalso. apply Hne. f_equal.
  rewrite <- Heq. apply (prefix_split "Bearer " authHeader Hpre).
Qed.

Lemma authMiddleware_passes (apiConfig : ApiSettings) (req : HttpRequest)
    (next : M unit) (st : State) :
  authorization req = Some ("Bearer " +:+ auth_secret apiConfig) ->
  authMiddleware apiConfig req next st = next st.
Proof.
  intros Hh. unfold authMiddleware. rewrite Hh.
  change 7%nat with (String.length "Bearer ").
  rewrite substringFrom_append, prefix_append, String.eqb_refl.
  reflexivity.
Qed.

(** With the limiter switched off, the auth stage is the whole stack. *)
Lemma serve_without_limiter (apiConfig : ApiSettings) (req : HttpRequest) (st : State) :
  rateLimit_enabled apiConfig = false ->
  serve apiConfig req st =
    runMiddleware (authStage apiConfig) req (route (target req)) st.
Proof. intros Hoff. unfold serve, setupMiddleware, rateLimitStage. by rewrite Hoff. Qed.

(** What the auth stage of the stack does with a request that reaches it. *)
Lemma authStage_gate (apiConfig : ApiSettings) (req : HttpRequest)
    (next : M unit) (st : State) :
  (auth_enabled apiConfig = true ->
   authorization req ≠ Some ("Bearer " +:+ auth_secret apiConfig) ->
   ∃ msg, runMiddleware (authStage apiConfig) req next st =
     (Ret tt, logResponse {| status := 401; body := ErrorBody msg |} st))
  ∧ (auth_enabled apiConfig = true ->
     authorization req = Some ("Bearer " +:+ auth_secret apiConfig) ->
     runMiddleware (authStage apiConfig) req next st = next st)
  ∧ (auth_enabled apiConfig = false ->
     runMiddleware (authStage apiConfig) req next st = next st).
Proof.
  unfold authStage. repeat split; intros Hen; rewrite Hen; simpl.
  - apply authMiddleware_denies.
  - apply authMiddleware_passes.
  - reflexivity.
Qed.

(** ** Outcomes of the dispatch helpers *)

Lemma processChatMessage_run (request : ChatRequest) (st : State) :
  runsUnless (chatHangs request st) (processChatMessage request) st.
Proof.
  unfold runsUnless, chatHangs, processChatMessage. unfold_M.
  destruct (agent st) as [a|] eqn:Ha; [| returned].
  destruct (portal a) as [p|] eqn:Hp; [| returned].
  destruct (generateChat p _ _) as [d v|d e|] eqn:Hg; simpl;
    [returned | returned | pending].
Qed.

Lemma getMemories_run (st : State) : runsUnless (memoriesHang st) getMemories st.
Proof.
  unfold runsUnless, memoriesHang, getMemories. unfold_M.
  destruct (agent st) as [a|] eqn:Ha; [| returned].
  destruct (retrieve (memory a) _ _ _) as [d v|d e|] eqn:Hg; simpl;
    [returned | returned | pending].
Qed.

Lemma storeMemory_run (request : MemoryRequest) (st : State) :
  runsUnless (storeHangs request st) (storeMemory request) st.
Proof.
  unfold runsUnless, storeHangs, storeMemory. unfold_M.
  destruct (agent st) as [a|] eqn:Ha; [| returned].
  simpl. fold (memoryRecord a request st).
  destruct (store (memory a) _ _) as [d v|d e|] eqn:Hg; simpl;
    [returned | returned | pending].
Qed.

(** ** The dispatch loop of [executeAction] *)

Lemma executeAction_loop_resolved (exts : list Extension) (request : ActionRequest)
    (start : Z) (st : State) :
  executeAction_loop exts request start st =
    match resolveAction exts (action request) with
    | Some (ext, OwnAction act) => actionOutcome ext act request start st
    | Some (_, Inherited) => notAFunction start st
    | None => notFound request start st
    end.
Proof.
  induction exts as [|ext exts IH]; simpl; [done |].
  destruct (getProperty (actions ext) (action request)) as [[act|]|]; [| done | done].
  unfold actionOutcome. unfold_M. by destruct (execute act _).
Qed.

Lemma resolveAction_unregistered (name : string) (exts : list Extension) :
  unregistered name exts -> resolveAction exts name = None.
Proof. induction 1 as [|ext exts Hext _ IH]; simpl; [done | by rewrite Hext]. Qed.

Lemma resolveAction_found (name : string) (before after : list Extension)
    (ext : Extension) (act : ExtensionAction) :
  unregistered name before ->
  actions ext !! name = Some act ->
  resolveAction (before ++ ext :: after)%list name = Some (ext, OwnAction act).
Proof.
  intros Hnone Hact. induction Hnone as [|e before He _ IH]; simpl.
  - unfold getProperty. by rewrite Hact.
  - by rewrite He.
Qed.

Lemma executeAction_initialized (a : Agent) (request : ActionRequest) (st : State) :
  agent st = Some a ->
  executeAction request st = executeAction_loop (extensions a) request (clock st) st.
Proof. intros Ha. unfold executeAction. unfold_M. by rewrite Ha. Qed.

Lemma executeAction_found (a : Agent) (before after : list Extension)
    (ext : Extension) (act : ExtensionAction) (request : ActionRequest) (st : State) :
  agent st = Some a ->
  extensions a = (before ++ ext :: after)%list ->
  unregistered (action request) before ->
  actions ext !! action request = Some act ->
  executeAction request st = actionOutcome ext act request (clock st) st.
Proof.
  intros Ha Hexts Hnone Hact.
  rewrite (executeAction_initialized a) by done.
  rewrite executeAction_loop_resolved, Hexts.
  by rewrite (resolveAction_found _ before after ext act).
Qed.

Lemma executeAction_missing (a : Agent) (request : ActionRequest) (st : State) :
  agent st = Some a ->
  unregistered (action request) (extensions a) ->
  executeAction request st =
    (Ret {| success := false; result := None;
            error := Some ("Action '" +:+ action request +:+ "' not found");
            executionTime := 0 |}, st).
Proof.
  intros Ha Hnone. rewrite (executeAction_initialized a) by done.
  rewrite executeAction_loop_resolved, resolveAction_unregistered by done.
  unfold notFound. by rewrite Z.sub_diag.
Qed.

Lemma executeAction_uninitialized (request : ActionRequest) (st : State) :
  agent st = None ->
  executeAction request st =
    (Ret {| success := false; result := None;
            error := Some "Agent not initialized"; executionTime := 0 |}, st).
Proof. intros Ha. unfold executeAction. unfold_M. by rewrite Ha. Qed.

Lemma executeAction_run (request : ActionRequest) (st : State) :
  runsUnless (actionHangs request st) (executeAction request) st.
Proof.
  unfold runsUnless, actionHangs.
  destruct (agent st) as [a|] eqn:Ha.
  2: { rewrite executeAction_uninitialized by done. returned. }
  rewrite (executeAction_initialized a) by done.
  rewrite executeAction_loop_resolved.
  destruct (resolveAction (extensions a) (action request)) as [[ext [act|]]|];
    [| returned | returned].
  unfold actionOutcome.
  destruct (execute act _) as [d res|d err|]; simpl; [returned | returned | pending].
Qed.

(** ** Replies of the routes and of the WebSocket handler *)

(** What a route writes once its helper has returned: the helper's value
    with status 200, or the 500 of the handler's [catch] when
    [JSON.stringify] refuses that value. *)
Lemma respond_run {A} (hang : bool) (helper : M A) (f : A -> Body)
    (message : string) (st : State) :
  runsUnless hang helper st ->
  if hang
  then ∃ st', tryCatch (r ← helper; resJson (f r))
                (fun _ => resStatusJson 500 (ErrorBody message)) st = (Pending, st')
              ∧ responses st' = responses st
  else ∃ v st1,
         helper st = (Ret v, st1)
         ∧ tryCatch (r ← helper; resJson (f r))
             (fun _ => resStatusJson 500 (ErrorBody message)) st =
           (Ret tt,
            logResponse (if serializable (f v)
                         then {| status := 200; body := f v |}
                         else {| status := 500; body := ErrorBody message |}) st1)
         ∧ responses st1 = responses st.
Proof.
  unfold runsUnless. destruct hang.
  - intros (st' & Hrun & Hq). exists st'. unfold_M. rewrite Hrun.
    split; [done | apply Hq].
  - intros (v & st1 & Hrun & Hq). exists v, st1. unfold_M. rewrite Hrun.
    split; [done |]. split; [| apply Hq].
    by destruct (serializable (f v)).
Qed.

(** A route with its helper, the body it makes of the helper's value and the
    message of its [catch]. *)
Lemma route_run (r : Route) (st : State) :
  if routeHangs r st
  then ∃ st', route r st = (Pending, st') ∧ responses st' = responses st
  else ∃ st' reply, route r st = (Ret tt, st')
                    ∧ responses st' = (responses st ++ [reply])%list.
Proof.
  destruct r as [chatRequest| |memoryRequest|actionRequest]; simpl.
  - unfold postChat. destruct (truthy (chat_message chatRequest)); simpl.
    + pose proof (respond_run _ _ ChatBody "Internal server error" st
                    (processChatMessage_run chatRequest st)) as Hrun.
      destruct (chatHangs chatRequest st); [exact Hrun |].
      destruct Hrun as (v & st1 & _ & -> & Hresp).
      do 2 eexists. split; [reflexivity |]. simpl. by rewrite Hresp.
    + by do 2 eexists.
  - pose proof (respond_run _ _ MemoriesBody "Failed to retrieve memories" st
                  (getMemories_run st)) as Hrun.
    unfold getMemory. destruct (memoriesHang st); [exact Hrun |].
    destruct Hrun as (v & st1 & _ & -> & Hresp).
    do 2 eexists. split; [reflexivity |]. simpl. by rewrite Hresp.
  - pose proof (respond_run _ _ MemoryBody "Failed to store memory" st
                  (storeMemory_run memoryRequest st)) as Hrun.
    unfold postMemory. destruct (storeHangs memoryRequest st); [exact Hrun |].
    destruct Hrun as (v & st1 & _ & -> & Hresp).
    do 2 eexists. split; [reflexivity |]. simpl. by rewrite Hresp.
  - pose proof (respond_run _ _ ActionBody "Failed to execute action" st
                  (executeAction_run actionRequest st)) as Hrun.
    unfold postAction. destruct (actionHangs actionRequest st); [exact Hrun |].
    destruct Hrun as (v & st1 & _ & -> & Hresp).
    do 2 eexists. split; [reflexivity |]. simpl. by rewrite Hresp.
Qed.

Lemma handleWebSocketMessage_unregistered (connectionId : string)
    (message : WebSocketMessage) (st : State) :
  connections st !! connectionId = None ->
  handleWebSocketMessage connectionId message st = (Ret tt, st).
Proof. intros Hc. unfold handleWebSocketMessage. unfold_M. by rewrite Hc. Qed.

Lemma handleWebSocketMessage_null (connectionId : string) (ws : WebSocket)
    (st : State) :
  connections st !! connectionId = Some ws ->
  handleWebSocketMessage connectionId NullMessage st =
    (Ret tt, logSend ws (ErrorMsg "Failed to process message") st).
Proof. intros Hc. unfold handleWebSocketMessage. unfold_M. by rewrite Hc. Qed.

Lemma handleWebSocketMessage_ping (connectionId : string) (ws : WebSocket)
    (data : option string) (st : State) :
  connections st !! connectionId = Some ws ->
  handleWebSocketMessage connectionId (Message (Some "ping") data) st =
    (Ret tt, logSend ws (Pong (clock st)) st).
Proof. intros Hc. unfold handleWebSocketMessage. unfold_M. by rewrite Hc. Qed.

Lemma handleWebSocketMessage_other (connectionId : string) (ws : WebSocket)
    (type data : option string) (st : State) :
  connections st !! connectionId = Some ws ->
  type ≠ Some "ping" -> type ≠ Some "chat" ->
  handleWebSocketMessage connectionId (Message type data) st =
    (Ret tt, logSend ws (ErrorMsg "Unknown message type") st).
Proof.
  intros Hc Hping Hchat. unfold handleWebSocketMessage. unfold_M. rewrite Hc.
  by rewrite !bool_decide_eq_false_2.
Qed.

Lemma handleWebSocketMessage_chat (connectionId : string) (ws : WebSocket)
    (data : option string) (st : State) :
  connections st !! connectionId = Some ws ->
  if chatHangs (frameRequest data) st
  then ∃ st', handleWebSocketMessage connectionId (Message (Some "chat") data) st =
                (Pending, st')
              ∧ sent st' = sent st
  else ∃ st' r, processChatMessage (frameRequest data) st = (Ret r, st')
                ∧ handleWebSocketMessage connectionId (Message (Some "chat") data) st =
                    (Ret tt, logSend ws (ChatResponseMsg r) st')
                ∧ sent st' = sent st.
Proof.
  intros Hc. pose proof (processChatMessage_run (frameRequest data) st) as Hrun.
  unfold runsUnless in Hrun. unfold handleWebSocketMessage.
  destruct (chatHangs (frameRequest data) st).
  - destruct Hrun as (st' & Hrun & Hq). exists st'. unfold_M. rewrite Hc. simpl.
    unfold frameRequest in Hrun. rewrite Hrun. split; [done | apply Hq].
  - destruct Hrun as (r & st' & Hrun & Hq). exists st', r. unfold_M. rewrite Hc. simpl.
    split; [exact Hrun |]. unfold frameRequest in Hrun. rewrite Hrun.
    split; [done | apply Hq].
Qed.

Lemma handleWebSocketMessage_registered (connectionId : string) (ws : WebSocket)
    (message : WebSocketMessage) (st : State) :
  connections st !! connectionId = Some ws ->
  if frameHangs message st
  then ∃ st', handleWebSocketMessage connectionId message st = (Pending, st')
              ∧ sent st' = sent st
  else ∃ st' reply, handleWebSocketMessage connectionId message st = (Ret tt, st')
                    ∧ sent st' = (sent st ++ [(ws, reply)])%list.
Proof.
  intros Hc. destruct message as [|type data]; simpl.
  - rewrite (handleWebSocketMessage_null _ ws) by done. by do 2 eexists.
  - destruct (decide (type = Some "chat")) as [->|Hchat].
    + rewrite bool_decide_eq_true_2 by done. simpl.
      pose proof (handleWebSocketMessage_chat connectionId ws data st Hc) as Hrun.
      unfold frameRequest in *.
      destruct (chatHangs _ st); [exact Hrun |].
      destruct Hrun as (st' & r & _ & -> & Hsent).
      do 2 eexists. split; [reflexivity |]. simpl. by rewrite Hsent.
    + rewrite bool_decide_eq_false_2 by done. simpl.
      destruct (decide (type = Some "ping")) as [->|Hping].
      * rewrite (handleWebSocketMessage_ping _ ws) by done. by do 2 eexists.
      * rewrite (handleWebSocketMessage_other _ ws) by done. by do 2 eexists.
Qed.



(** ** Exactly one reply *)

(** C1, as stated, fails: a frame handled for a connection id that is not in
    the registry is dropped; the handler returns and nothing is sent on any
    socket nor written on any response. The callbacks reach that case by
    themselves: socket 1 connects as "i", its [error] callback removes the
    entry, and a ping that still arrives on it is left without a pong; the
    welcome message is all that socket was ever sent. *)
Lemma C1_unregistered_frame_gets_no_reply :
  handleWebSocketMessage "gone" (Message (Some "ping") None) demoState
    = (Ret tt, demoState)
  ∧ sent demoState = [] ∧ responses demoState = []
  ∧ (onConnection 1%nat blankState).1 = Ret "i"
  ∧ (onMessage "i" 1%nat (Parsed (Message (Some "ping") None))
       (onError "i" (onConnection 1%nat blankState).2).2).1 = Ret tt
  ∧ sent (onMessage "i" 1%nat (Parsed (Message (Some "ping") None))
            (onError "i" (onConnection 1%nat blankState).2).2).2
      = [(1%nat, Welcome "i" 1000)].
Proof. by vm_compute. Qed.

(** C1, amended: a /chat, /memory or /action request ends with exactly one
    response written, and a frame of a registered connection with exactly
    one message sent on that connection's socket, whether the collaborator
    returned or raised and whether or not the agent is initialized; the
    handler itself never raises. Nothing is written exactly when the one
    collaborator call that the handler awaits for this request never
    settles. A frame for an id that is not in the registry gets no reply. *)
Theorem C1_one_reply_once_settled (r : Route) (connectionId : string)
    (message : WebSocketMessage) (st : State) :
  (if routeHangs r st
   then ∃ st', route r st = (Pending, st') ∧ responses st' = responses st
   else ∃ st' reply, route r st = (Ret tt, st')
                     ∧ responses st' = (responses st ++ [reply])%list)
  ∧ (∀ ws, connections st !! connectionId = Some ws ->
       if frameHangs message st
       then ∃ st', handleWebSocketMessage connectionId message st = (Pending, st')
                   ∧ sent st' = sent st
       else ∃ st' reply, handleWebSocketMessage connectionId message st = (Ret tt, st')
                         ∧ sent st' = (sent st ++ [(ws, reply)])%list)
  ∧ (connections st !! connectionId = None ->
     handleWebSocketMessage connectionId message st = (Ret tt, st)).
Proof.
  split; [apply route_run |]. split.
  - intros ws. apply handleWebSocketMessage_registered.
  - apply handleWebSocketMessage_unregistered.
Qed.

Lemma C1_one_reply_once_settled_witness :
  (∃ st' reply,
     handleWebSocketMessage "abc" (Message (Some "chat") None) demoState = (Ret tt, st')
     ∧ sent st' = (sent demoState ++ [(7%nat, reply)])%list)
  ∧ handleWebSocketMessage "gone" NullMessage demoState = (Ret tt, demoState).
Proof.
  split.
  - refine (proj1 (proj2 (C1_one_reply_once_settled GetMemory "abc"
                            (Message (Some "chat") None) demoState)) 7%nat _).
    vm_compute. reflexivity.
  - apply (C1_one_reply_once_settled GetMemory "gone" NullMessage demoState).
    vm_compute. reflexivity.
Defined.

(** An action that settles is answered once, one that never settles is not:
    the two cases of the route part, on the demo extension. *)
Example one_reply_scenario :
  (∃ st' reply,
     route (PostAction {| action := "boom"; parameters := None |}) demoState = (Ret tt, st')
     ∧ responses st' = [reply])
  ∧ (∃ st',
       route (PostAction {| action := "stuck"; parameters := None |}) demoState =
         (Pending, st')
       ∧ responses st' = []).
Proof.
  split.
  - exact (route_run (PostAction {| action := "boom"; parameters := None |}) demoState).
  - exact (route_run (PostAction {| action := "stuck"; parameters := None |}) demoState).
Qed.

(** ** No timeout *)

(** C2, as stated, fails: with any timeout of less than 200 ms in mind, an
    action that takes 200 ms is still awaited to its end and its own result
    is returned, with [executionTime] 200; no failure is produced. *)
Lemma C2_slow_handler_is_awaited :
  executeAction {| action := "slow"; parameters := None |} demoState =
    (Ret {| success := true; result := Some (Json (JStr "done")); error := None;
            executionTime := 200 |},
     advance 200 (logCall (CallExecute "demo" "slow" ∅) demoState))
  ∧ executeAction {| action := "stuck"; parameters := None |} demoState =
    (Pending, logCall (CallExecute "demo" "stuck" ∅) demoState).
Proof. by vm_compute. Qed.

(** C2, amended: [executeAction] bounds nothing. When the action that an
    extension owns under the requested name, the first such in the order of
    the extensions, settles after [d] milliseconds, however many, the
    response is built from the action's own outcome (its result, or the
    error it raised) with [executionTime = d]; while the action never
    settles, [executeAction] never returns a response. Either way there is
    at most one response. *)
Theorem C2_handler_awaited_without_timeout (a : Agent)
    (before after : list Extension) (ext : Extension) (act : ExtensionAction)
    (request : ActionRequest) (st : State) :
  agent st = Some a ->
  extensions a = (before ++ ext :: after)%list ->
  unregistered (action request) before ->
  actions ext !! action request = Some act ->
  let params := default ∅ (parameters request) in
  let st1 := logCall (CallExecute (ext_id ext) (action request) params) st in
  (∀ d res, execute act (Some params) = Resolves d res ->
     executeAction request st =
       (Ret {| success := res_success res; result := res_result res;
               error := res_error res; executionTime := Z.of_N d |},
        advance d st1))
  ∧ (∀ d err, execute act (Some params) = Rejects d err ->
     executeAction request st =
       (Ret {| success := false; result := None; error := Some (errorText err);
               executionTime := Z.of_N d |},
        advance d st1))
  ∧ (execute act (Some params) = NeverSettles ->
     executeAction request st = (Pending, st1)).
Proof.
  intros Ha Hexts Hnone Hact params st1.
  rewrite (executeAction_found a before after ext act) by done.
  unfold actionOutcome. fold params. fold st1.
  repeat split; intros; subst params; simplify_eq/=;
    match goal with H : execute _ _ = _ |- _ => rewrite H end;
    rewrite ?Z.add_simpl_l; reflexivity.
Qed.

Lemma C2_handler_awaited_without_timeout_witness :
  executeAction {| action := "slow"; parameters := None |} demoState =
    (Ret {| success := true; result := Some (Json (JStr "done")); error := None;
            executionTime := 200 |},
     advance 200 (logCall (CallExecute "demo" "slow" ∅) demoState)).
Proof.
  refine (proj1 (C2_handler_awaited_without_timeout demoAgent [] [] demoExtension
            (timedAction 200 (JStr "done"))
            {| action := "slow"; parameters := None |} demoState
            _ _ _ _) 200%N (okResult (JStr "done")) _).
  - reflexivity.
  - reflexivity.
  - constructor.
  - vm_compute. reflexivity.
  - reflexivity.
Defined.

(** ** Failing handlers *)






(** ** Unknown actions *)

(** C4, as stated, fails: before the agent is initialized no handler is
    registered under any name, and the response to an unknown action is the
    "Agent not initialized" failure, not the "not found" one. *)
Lemma C4_uninitialized_agent_is_not_not_found :
  executeAction {| action := "nope"; parameters := None |} blankState =
    (Ret {| success := false; result := None;
            error := Some "Agent not initialized"; executionTime := 0 |},
     blankState)
  ∧ Some "Agent not initialized" ≠ Some "Action 'nope' not found".
Proof. split; [by vm_compute | discriminate]. Qed.

(** C4, amended: with an initialized agent, when for no extension
    [ext.actions[name]] finds anything under the requested name (none owns
    an action of that name, and the name is not that of a member that every
    object inherits), [executeAction] returns the failure
    "Action '<name>' not found" with [executionTime] 0 and leaves the state as
    it was: no handler is called and the clock has not moved. Before the
    agent is initialized the response is the failure "Agent not initialized"
    instead, again without any call. *)
Theorem C4_unknown_action_not_found (request : ActionRequest) (st : State) :
  (∀ a, agent st = Some a ->
        unregistered (action request) (extensions a) ->
        executeAction request st =
          (Ret {| success := false; result := None;
                  error := Some ("Action '" +:+ action request +:+ "' not found");
                  executionTime := 0 |}, st))
  ∧ (agent st = None ->
     executeAction request st =
       (Ret {| success := false; result := None;
               error := Some "Agent not initialized"; executionTime := 0 |}, st)).
Proof.
  split.
  - intros a. apply executeAction_missing.
  - apply executeAction_uninitialized.
Qed.

Lemma C4_unknown_action_not_found_witness :
  executeAction {| action := "nope"; parameters := None |} demoState =
    (Ret {| success := false; result := None;
            error := Some "Action 'nope' not found"; executionTime := 0 |},
     demoState)
  ∧ executeAction {| action := "nope"; parameters := None |} blankState =
    (Ret {| success := false; result := None;
            error := Some "Agent not initialized"; executionTime := 0 |},
     blankState).
Proof.
  split.
  - refine (proj1 (C4_unknown_action_not_found
              {| action := "nope"; parameters := None |} demoState) demoAgent _ _).
    + reflexivity.
    + constructor; [vm_compute; reflexivity | constructor].
  - refine (proj2 (C4_unknown_action_not_found
              {| action := "nope"; parameters := None |} blankState) _).
    reflexivity.
Defined.

(** A name that no extension owns but every object inherits is found: the
    call of its missing [execute] raises, and the answer is that failure,
    not "not found". *)
Example inherited_member_is_found :
  executeAction {| action := "toString"; parameters := None |} demoState =
    (Ret {| success := false; result := None;
            error := Some "action.execute is not a function"; executionTime := 0 |},
     demoState).
Proof. by vm_compute. Qed.

(** ** Rate limiting *)

Section Limiter.
Variable apiConfig : ApiSettings.

Lemma admitRate_window (key : string) (now : Z)
    (store : gmap string RateWindow) :
  (admitRate apiConfig key now store).2 !! key =
    Some match store !! key with
         | None => {| windowStart := now; count := 1 |}
         | Some w =>
             if bool_decide (windowStart w + rateLimit_windowMs apiConfig ≤ now)%Z
             then {| windowStart := now; count := 1 |}
             else {| windowStart := windowStart w; count := count w + 1 |}
         end.
Proof. unfold admitRate. simpl. by rewrite lookup_insert_eq. Qed.

Lemma admitRate_other (key k : string) (now : Z)
    (store : gmap string RateWindow) :
  k ≠ key -> (admitRate apiConfig key now store).2 !! k = store !! k.
Proof. intros Hk. unfold admitRate. simpl. by rewrite lookup_insert_ne. Qed.

Lemma admitRate_countsPositive (key : string) (now : Z)
    (store : gmap string RateWindow) :
  countsPositive store -> countsPositive (admitRate apiConfig key now store).2.
Proof.
  intros Hpos k w. destruct (decide (k = key)) as [->|Hk].
  - rewrite admitRate_window. intros [= <-].
    destruct (store !! key) as [w0|] eqn:Hw0; simpl; [| lia].
    case_bool_decide; simpl; [lia |].
    specialize (Hpos key w0 Hw0). lia.
  - rewrite admitRate_other by done. apply Hpos.
Qed.

Lemma admitMany_countsPositive (reqs : list (string * Z))
    (store : gmap string RateWindow) :
  countsPositive store -> countsPositive (admitMany apiConfig reqs store).2.
Proof.
  revert store. induction reqs as [|[key now] reqs IH]; intros store Hpos; [done |].
  cbn [admitMany].
  pose proof (admitRate_countsPositive key now store Hpos) as Hstep.
  destruct (admitRate apiConfig key now store) as [d store'].
  specialize (IH store' Hstep).
  by destruct (admitMany apiConfig reqs store') as [ds store''].
Qed.

End Limiter.

(** C5: after any sequence of calls, a further call for [key] at [now]
    starts a fresh window with count 1 when the key has no window or its
    window has run out ([now >= windowStart + windowSizeMs]); otherwise it
    adds one to the count and keeps [windowStart], also when the call is over
    the limit; the call is denied as rate limited exactly when the count
    after that exceeds [maxRequests]; the windows of other keys are left
    alone; and every recorded count is at least 1, so never negative. *)
Theorem C5_fixed_window (apiConfig : ApiSettings) (reqs : list (string * Z))
    (key : string) (now : Z) :
  let store := (admitMany apiConfig reqs ∅).2 in
  let verdict := (admitRate apiConfig key now store).1 in
  let store' := (admitRate apiConfig key now store).2 in
  ((store !! key = None ∨
    ∃ w, store !! key = Some w ∧ windowStart w + rateLimit_windowMs apiConfig ≤ now) ->
   store' !! key = Some {| windowStart := now; count := 1 |})
  ∧ (∀ w, store !! key = Some w ->
          now < windowStart w + rateLimit_windowMs apiConfig ->
          store' !! key = Some {| windowStart := windowStart w; count := count w + 1 |})
  ∧ (∀ w', store' !! key = Some w' ->
           (verdict = Deny RATE_LIMITED <-> rateLimit_maxRequests apiConfig < count w')
           ∧ (verdict = Allow <-> count w' ≤ rateLimit_maxRequests apiConfig))
  ∧ (∀ k, k ≠ key -> store' !! k = store !! k)
  ∧ countsPositive store ∧ countsPositive store'.
Proof.
  intros store verdict store'.
  assert (countsPositive store) as Hpos.
  { apply admitMany_countsPositive. intros k w. by rewrite lookup_empty. }
  split; [| split; [| split; [| split; [| split]]]].
  - intros Hfresh. subst store'. rewrite admitRate_window.
    destruct Hfresh as [-> | (w & -> & Hold)]; [done |].
    by rewrite bool_decide_eq_true_2.
  - intros w Hw Hlive. subst store'. rewrite admitRate_window, Hw.
    by rewrite bool_decide_eq_false_2 by lia.
  - intros w'. subst store' verdict. unfold admitRate. simpl.
    rewrite lookup_insert_eq. intros [= <-].
    case_bool_decide; split; split; intros; try done; lia.
  - intros k Hk. by apply admitRate_other.
  - exact Hpos.
  - by apply admitRate_countsPositive.
Qed.

Lemma C5_fixed_window_witness :
  (admitRate threePerSecond "k" 30
     (admitMany threePerSecond [("k", 0); ("k", 10); ("k", 20)] ∅).2).2 !! "k"
    = Some {| windowStart := 0; count := 4 |}
  ∧ (admitRate threePerSecond "k" 1000
       (admitMany threePerSecond [("k", 0); ("k", 10); ("k", 20)] ∅).2).2 !! "k"
    = Some {| windowStart := 1000; count := 1 |}.
Proof.
  split.
  - refine (proj1 (proj2 (C5_fixed_window threePerSecond
              [("k", 0); ("k", 10); ("k", 20)] "k" 30))
              {| windowStart := 0; count := 3 |} _ _).
    + vm_compute. reflexivity.
    + vm_compute. reflexivity.
  - refine (proj1 (C5_fixed_window threePerSecond
              [("k", 0); ("k", 10); ("k", 20)] "k" 1000) _).
    right. exists {| windowStart := 0; count := 3 |}.
    split; vm_compute; [reflexivity | discriminate].
Defined.

(** Three calls in the window are admitted, the fourth is denied, and a call
    once the window has run out is admitted and starts the next window. *)
Example rate_limit_scenario :
  admitMany threePerSecond
    [("k", 0); ("k", 10); ("k", 20); ("k", 30); ("k", 1000)] ∅ =
  ([Allow; Allow; Allow; Deny RATE_LIMITED; Allow],
   {[ "k" := {| windowStart := 1000; count := 1 |} ]}).
Proof. by vm_compute. Qed.

(** ** Authentication, on concrete requests *)

(** C6, as stated, fails: the limiter is installed before the auth stage.
    Once it has let one request through, a second request of the same client
    is answered 429 whatever it carries: with the matching token it does not
    pass through to the handler (the memory provider was asked once, for the
    first request), and without a token it is answered 429, not 401. *)
Lemma C6_limiter_answers_first :
  responses servedOnce = [ {| status := 200; body := MemoriesBody [] |} ]
  ∧ calls servedOnce = [CallRetrieve "agent-1" "recent" 20]
  ∧ serve limitedOnce (memoryRequestWith (Some "Bearer secret")) servedOnce =
      (Ret tt,
       logResponse {| status := 429;
                      body := ErrorBody "Too many requests, please try again later." |}
         (limited limitedOnce (memoryRequestWith (Some "Bearer secret")) servedOnce).2)
  ∧ calls (serve limitedOnce (memoryRequestWith (Some "Bearer secret")) servedOnce).2 =
      [CallRetrieve "agent-1" "recent" 20]
  ∧ responses (serve limitedOnce (memoryRequestWith None) servedOnce).2 =
      [ {| status := 200; body := MemoriesBody [] |};
        {| status := 429;
           body := ErrorBody "Too many requests, please try again later." |} ].
Proof. by vm_compute. Qed.

Lemma serve_limited (apiConfig : ApiSettings) (req : HttpRequest) (st : State) :
  serve apiConfig req st =
    match (limited apiConfig req st).1 with
    | Allow =>
        runMiddleware (authStage apiConfig) req (route (target req))
          (limited apiConfig req st).2
    | Deny _ =>
        (Ret tt,
         logResponse {| status := 429;
                        body := ErrorBody "Too many requests, please try again later." |}
           (limited apiConfig req st).2)
    end.
Proof.
  unfold serve, setupMiddleware, rateLimitStage, limited.
  destruct (rateLimit_enabled apiConfig); [| done].
  cbn [app runMiddleware]. unfold rateLimitMiddleware. unfold_M.
  destruct (admitRate apiConfig (clientKey req) (clock st) (windows st)) as [d store'].
  by destruct d.
Qed.

(** C6, amended: the stack serves a request in two steps. A request that
    the limiter refuses is answered 429, whatever its token. A request that
    the limiter lets through (every request when the limiter is off) meets
    the auth stage: with authentication enabled it is answered 401, and
    nothing further runs, unless its [Authorization] header is exactly
    ["Bearer " + secret], in which case it goes on to its route handler; with
    authentication disabled it goes on to its route handler whatever its
    header. *)
Theorem C6_auth_after_limiter (apiConfig : ApiSettings) (req : HttpRequest)
    (st : State) :
  let verdict := (limited apiConfig req st).1 in
  let st1 := (limited apiConfig req st).2 in
  (verdict = Allow -> auth_enabled apiConfig = true ->
   authorization req ≠ Some ("Bearer " +:+ auth_secret apiConfig) ->
   ∃ msg, serve apiConfig req st =
     (Ret tt, logResponse {| status := 401; body := ErrorBody msg |} st1))
  ∧ (verdict = Allow -> auth_enabled apiConfig = true ->
     authorization req = Some ("Bearer " +:+ auth_secret apiConfig) ->
     serve apiConfig req st = route (target req) st1)
  ∧ (verdict = Allow -> auth_enabled apiConfig = false ->
     serve apiConfig req st = route (target req) st1)
  ∧ (∀ kind, verdict = Deny kind ->
     serve apiConfig req st =
       (Ret tt,
        logResponse {| status := 429;
                       body := ErrorBody "Too many requests, please try again later." |}
          st1))
  ∧ (rateLimit_enabled apiConfig = false -> verdict = Allow ∧ st1 = st).
Proof.
  intros verdict st1.
  pose proof (serve_limited apiConfig req st) as Hserve.
  fold verdict st1 in Hserve.
  pose proof (authStage_gate apiConfig req (route (target req)) st1)
    as (Hdeny & Hpass & Hoff).
  split; [| split; [| split; [| split]]].
  - intros Hv Hen Hne. rewrite Hserve, Hv. by apply Hdeny.
  - intros Hv Hen Heq. rewrite Hserve, Hv. by apply Hpass.
  - intros Hv Hen. rewrite Hserve, Hv. by apply Hoff.
  - intros kind Hv. by rewrite Hserve, Hv.
  - intros Hoff'. subst verdict st1. unfold limited. by rewrite Hoff'.
Qed.

Lemma C6_auth_after_limiter_witness :
  (∃ msg, serve secured (requestWith (Some "Bearer wrong")) demoState =
          (Ret tt, logResponse {| status := 401; body := ErrorBody msg |} demoState))
  ∧ serve secured (requestWith (Some "Bearer secret")) demoState =
    route (target (requestWith (Some "Bearer secret"))) demoState
  ∧ serve limitedOnce (memoryRequestWith (Some "Bearer secret")) servedOnce =
      (Ret tt,
       logResponse {| status := 429;
                      body := ErrorBody "Too many requests, please try again later." |}
         (limited limitedOnce (memoryRequestWith (Some "Bearer secret")) servedOnce).2).
Proof.
  split; [| split].
  - refine (proj1 (C6_auth_after_limiter secured (requestWith (Some "Bearer wrong"))
                     demoState) _ _ _).
    + reflexivity.
    + reflexivity.
    + vm_compute. discriminate.
  - refine (proj1 (proj2 (C6_auth_after_limiter secured
                            (requestWith (Some "Bearer secret")) demoState)) _ _ _);
      reflexivity.
  - refine (proj1 (proj2 (proj2 (proj2
              (C6_auth_after_limiter limitedOnce (memoryRequestWith (Some "Bearer secret"))
                 servedOnce)))) RATE_LIMITED _).
    vm_compute. reflexivity.
Defined.

(** With the secret "secret": no header and a wrong token are answered 401
    without any call to a handler; the right token reaches the action. *)
Example auth_scenario :
  (serve secured (requestWith None) demoState).2.(responses) =
    [ {| status := 401; body := ErrorBody "Unauthorized" |} ]
  ∧ (serve secured (requestWith None) demoState).2.(calls) = []
  ∧ (serve secured (requestWith (Some "Bearer wrong")) demoState).2.(responses) =
    [ {| status := 401; body := ErrorBody "Invalid token" |} ]
  ∧ (serve secured (requestWith (Some "Bearer wrong")) demoState).2.(calls) = []
  ∧ (serve secured (requestWith (Some "Bearer secret")) demoState).2.(calls) =
    [ CallExecute "demo" "slow" ∅ ].
Proof. by vm_compute. Qed.

(** ** Frame types and their replies *)

(** C7, as stated, fails: the handler knows no 'command' frame; such a frame
    falls to the default case and is answered with the error object, which
    carries no type at all, not with a 'command_response'. *)
Lemma C7_command_frame_is_unknown :
  handleWebSocketMessage "abc" (Message (Some "command") None) demoState =
    (Ret tt, logSend 7%nat (ErrorMsg "Unknown message type") demoState)
  ∧ replyType (ErrorMsg "Unknown message type") ≠ Some "command_response".
Proof. split; [by vm_compute | discriminate]. Qed.

(** C7, amended: on a registered connection the reply follows the frame.
    A 'ping' is answered by a 'pong' with the current time. A 'chat' is
    answered by a 'chat_response' carrying what [processChatMessage] returns
    for the frame's data, once the portal call awaited for it has settled;
    exactly while that call never settles there is no reply. Every other
    type, 'command' included, and a frame without a type, is answered by the
    object [{error: 'Unknown message type'}]. A frame that parses to [null]
    is answered by [{error: 'Failed to process message'}]. The two error
    objects carry no type and no error kind. *)
Theorem C7_reply_by_frame_type (connectionId : string) (ws : WebSocket)
    (type data : option string) (st : State) :
  connections st !! connectionId = Some ws ->
  (type = Some "ping" ->
   handleWebSocketMessage connectionId (Message type data) st =
     (Ret tt, logSend ws (Pong (clock st)) st))
  ∧ (type = Some "chat" ->
     if chatHangs (frameRequest data) st
     then ∃ st', handleWebSocketMessage connectionId (Message type data) st =
                   (Pending, st')
                 ∧ sent st' = sent st
     else ∃ st' r, processChatMessage (frameRequest data) st = (Ret r, st')
                   ∧ handleWebSocketMessage connectionId (Message type data) st =
                       (Ret tt, logSend ws (ChatResponseMsg r) st')
                   ∧ sent st' = sent st)
  ∧ (type ≠ Some "ping" -> type ≠ Some "chat" ->
     handleWebSocketMessage connectionId (Message type data) st =
       (Ret tt, logSend ws (ErrorMsg "Unknown message type") st))
  ∧ handleWebSocketMessage connectionId NullMessage st =
      (Ret tt, logSend ws (ErrorMsg "Failed to process message") st)
  ∧ replyType (Pong (clock st)) = Some "pong"
  ∧ (∀ r, replyType (ChatResponseMsg r) = Some "chat_response")
  ∧ (∀ text, replyType (ErrorMsg text) = None).
Proof.
  intros Hc. split; [| split; [| split; [| split]]].
  - intros ->. by apply handleWebSocketMessage_ping.
  - intros ->. by apply handleWebSocketMessage_chat.
  - by apply handleWebSocketMessage_other.
  - by apply handleWebSocketMessage_null.
  - done.
Qed.

Lemma C7_reply_by_frame_type_witness :
  handleWebSocketMessage "abc" (Message (Some "ping") None) demoState =
    (Ret tt, logSend 7%nat (Pong (clock demoState)) demoState)
  ∧ handleWebSocketMessage "abc" (Message (Some "command") None) demoState =
    (Ret tt, logSend 7%nat (ErrorMsg "Unknown message type") demoState)
  ∧ (∃ st' r,
       processChatMessage (frameRequest (Some "hello")) (chatState echoPortal) = (Ret r, st')
       ∧ handleWebSocketMessage "abc" (Message (Some "chat") (Some "hello"))
           (chatState echoPortal) =
         (Ret tt, logSend 7%nat (ChatResponseMsg r) st')
       ∧ sent st' = sent (chatState echoPortal)).
Proof.
  split; [| split].
  - refine (proj1 (C7_reply_by_frame_type "abc" 7%nat (Some "ping") None demoState _) _).
    + vm_compute. reflexivity.
    + reflexivity.
  - refine (proj1 (proj2 (proj2 (C7_reply_by_frame_type "abc" 7%nat (Some "command")
                                    None demoState _))) _ _).
    + vm_compute. reflexivity.
    + discriminate.
    + discriminate.
  - refine (proj1 (proj2 (C7_reply_by_frame_type "abc" 7%nat (Some "chat")
                            (Some "hello") (chatState echoPortal) _)) _).
    + vm_compute. reflexivity.
    + reflexivity.
Defined.

(** ** The connection registry *)

Lemma setConnections_same (st : State) : setConnections (connections st) st = st.
Proof. by destruct st. Qed.

Lemma onClose_connections (connectionId : string) (st : State) :
  onClose connectionId st =
    (Ret tt, setConnections (delete connectionId (connections st)) st).
Proof. reflexivity. Qed.

Lemma onClose_absent (connectionId : string) (st : State) :
  connections st !! connectionId = None -> onClose connectionId st = (Ret tt, st).
Proof.
  intros Hc. rewrite onClose_connections, delete_id by done.
  by rewrite setConnections_same.
Qed.

Lemma onClose_removes (connectionId : string) (st : State) :
  connections (onClose connectionId st).2 !! connectionId = None.
Proof. rewrite onClose_connections. simpl. apply lookup_delete_eq. Qed.

Lemma handleWebSocketMessageWhile_chat (meanwhile : State -> State)
    (connectionId : string) (ws : WebSocket) (data : option string)
    (r : ChatResponse) (st st1 : State) :
  connections st !! connectionId = Some ws ->
  processChatMessage (frameRequest data) st = (Ret r, st1) ->
  handleWebSocketMessageWhile meanwhile connectionId (Message (Some "chat") data) st =
    (Ret tt, logSend ws (ChatResponseMsg r) (meanwhile st1)).
Proof.
  intros Hc Hrun. unfold handleWebSocketMessageWhile. unfold_M. rewrite Hc. simpl.
  unfold frameRequest in Hrun. by rewrite Hrun.
Qed.

Lemma handleWebSocketMessageWhile_nothing (connectionId : string)
    (message : WebSocketMessage) (st : State) :
  handleWebSocketMessageWhile (fun st' => st') connectionId message st =
    handleWebSocketMessage connectionId message st.
Proof.
  unfold handleWebSocketMessageWhile, handleWebSocketMessage. unfold_M.
  destruct (connections st !! connectionId) as [ws|]; [| done].
  destruct message as [|type data]; [done |].
  repeat case_bool_decide; try done;
    by destruct (processChatMessage _ st) as [[r|err|] st'].
Qed.

(** C8, as stated, fails: replies are not sent through the registry. After
    connection "abc" has been removed, a frame of its socket that is not JSON
    is still answered on that socket; and when the connection is removed
    while its chat reply is awaited, the reply is still sent on the socket
    that was fetched before the [await]. In both cases a message is handed
    to the socket of an id that is no longer registered. *)
Lemma C8_reply_reaches_removed_connection :
  connections (onClose "abc" demoState).2 !! "abc" = None
  ∧ onMessage "abc" 7%nat Unparsable (onClose "abc" demoState).2 =
      (Ret tt, logSend 7%nat (ErrorMsg "Invalid message format") (onClose "abc" demoState).2)
  ∧ connections (chatState echoPortal) !! "abc" = Some 7%nat
  ∧ connections closedMeanwhile !! "abc" = None
  ∧ sent closedMeanwhile =
      [(7%nat,
        ChatResponseMsg
          {| response := "pong"; sessionId := None; chat_timestamp := 1040;
             metadata := Some {| tokensUsed := Some 5; processingTime := 40 |} |})].
Proof. by vm_compute. Qed.

(** C8, amended: the registry is read once, at the head of
    [handleWebSocketMessage]. A frame handled for a connection id that is
    not in the registry at that moment, because it never was or because it
    has been removed, returns normally, sends nothing and leaves the whole
    state, registry included, as it was; and removing an id that is not in
    the registry, be it a second removal or an unknown id, returns normally
    and changes nothing. Replies themselves do not go through the registry:
    the answer to a frame that is not JSON is sent on the socket the frame
    came from, registered or not, and the chat reply is sent, after the
    await, on the socket that was fetched before it, whatever has happened
    to the registry in the meantime. *)
Theorem C8_registry_read_once (connectionId : string)
    (message : WebSocketMessage) (st : State) :
  (connections st !! connectionId = None ->
   handleWebSocketMessage connectionId message st = (Ret tt, st))
  ∧ handleWebSocketMessage connectionId message (onClose connectionId st).2 =
      (Ret tt, (onClose connectionId st).2)
  ∧ (connections st !! connectionId = None ->
     onClose connectionId st = (Ret tt, st) ∧ onError connectionId st = (Ret tt, st))
  ∧ onClose connectionId (onClose connectionId st).2 =
      (Ret tt, (onClose connectionId st).2)
  ∧ onError connectionId (onClose connectionId st).2 =
      (Ret tt, (onClose connectionId st).2)
  ∧ (∀ ws, onMessage connectionId ws Unparsable st =
             (Ret tt, logSend ws (ErrorMsg "Invalid message format") st))
  ∧ (∀ meanwhile ws data r st1,
       connections st !! connectionId = Some ws ->
       processChatMessage (frameRequest data) st = (Ret r, st1) ->
       handleWebSocketMessageWhile meanwhile connectionId
           (Message (Some "chat") data) st =
         (Ret tt, logSend ws (ChatResponseMsg r) (meanwhile st1)))
  ∧ handleWebSocketMessageWhile (fun st' => st') connectionId message st =
      handleWebSocketMessage connectionId message st.
Proof.
  pose proof (onClose_removes connectionId st) as Hgone.
  split; [| split; [| split; [| split; [| split; [| split; [| split]]]]]].
  - apply handleWebSocketMessage_unregistered.
  - by apply handleWebSocketMessage_unregistered.
  - intros Hc. split; by apply onClose_absent.
  - by apply onClose_absent.
  - by apply onClose_absent.
  - done.
  - intros meanwhile ws data r st1. apply handleWebSocketMessageWhile_chat.
  - apply handleWebSocketMessageWhile_nothing.
Qed.

Lemma C8_registry_read_once_witness :
  handleWebSocketMessage "gone" (Message (Some "chat") (Some "hello")) demoState =
    (Ret tt, demoState)
  ∧ (onClose "gone" demoState = (Ret tt, demoState)
     ∧ onError "gone" demoState = (Ret tt, demoState))
  ∧ handleWebSocketMessageWhile (fun st => (onClose "abc" st).2) "abc"
      (Message (Some "chat") (Some "hello")) (chatState echoPortal) =
    (Ret tt,
     logSend 7%nat
       (ChatResponseMsg
          {| response := "pong"; sessionId := None; chat_timestamp := 1040;
             metadata := Some {| tokensUsed := Some 5; processingTime := 40 |} |})
       (onClose "abc"
          (advance 40
             (logCall
                (CallGenerateChat [ {| role := "user"; content := Some "hello" |} ] None)
                (chatState echoPortal)))).2).
Proof.
  split; [| split].
  - refine (proj1 (C8_registry_read_once "gone"
              (Message (Some "chat") (Some "hello")) demoState) _).
    vm_compute. reflexivity.
  - refine (proj1 (proj2 (proj2 (C8_registry_read_once "gone" NullMessage demoState))) _).
    vm_compute. reflexivity.
  - refine (proj1 (proj2 (proj2 (proj2 (proj2 (proj2 (proj2
              (C8_registry_read_once "abc" NullMessage (chatState echoPortal))))))))
              (fun st => (onClose "abc" st).2) 7%nat (Some "hello") _ _ _ _).
    + vm_compute. reflexivity.
    + reflexivity.
Defined.

(** ** Connection ids *)

(** C9, as stated, fails: ids come from random draws and nothing compares
    them with the registry. When two draws render alike, two different
    sockets are registered under one id, the second replacing the first in
    the registry; and the id of a closed connection is handed out again. *)
Lemma C9_equal_draws_share_an_id :
  (onConnection 1%nat blankState).1 = Ret "i"
  ∧ (onConnection 2%nat (onConnection 1%nat blankState).2).1 = Ret "i"
  ∧ connections (onConnection 2%nat (onConnection 1%nat blankState).2).2
      = {[ "i" := 2%nat ]}
  ∧ (onConnection 2%nat (onClose "i" (onConnection 1%nat blankState).2).2).1
      = Ret "i".
Proof. by vm_compute. Qed.

Lemma onConnection_run (ws : WebSocket) (st : State) :
  let connectionId := slice 2 15 (random st (drawn st)) in
  onConnection ws st =
    (Ret connectionId,
     logSend ws (Welcome connectionId (clock st))
       (setConnections (<[connectionId := ws]> (connections st)) (nextDraw st))).
Proof. reflexivity. Qed.

(** C9, amended: the id of a new connection is the characters 2 to 14 of
    the base-36 rendering of the next random draw, whatever the registry
    holds or has held; the socket is stored under it, replacing a socket
    already stored there, and is sent the welcome message. Hence two
    registrations in a row get distinct ids exactly when those parts of
    their two draws differ, and when they do not, the first socket can no
    longer be found under the id. *)
Theorem C9_id_is_the_draw (ws1 ws2 : WebSocket) (st : State) :
  let id1 := slice 2 15 (random st (drawn st)) in
  let id2 := slice 2 15 (random st (S (drawn st))) in
  ∃ st1 st2,
    onConnection ws1 st = (Ret id1, st1)
    ∧ connections st1 = <[id1 := ws1]> (connections st)
    ∧ sent st1 = (sent st ++ [(ws1, Welcome id1 (clock st))])%list
    ∧ onConnection ws2 st1 = (Ret id2, st2)
    ∧ connections st2 = <[id2 := ws2]> (<[id1 := ws1]> (connections st))
    ∧ (id1 = id2 -> connections st2 !! id1 = Some ws2).
Proof.
  intros id1 id2. do 2 eexists.
  split; [apply onConnection_run |].
  split; [reflexivity |]. split; [reflexivity |].
  split; [apply onConnection_run |].
  split; [reflexivity |].
  intros Heq. simpl. fold id1 id2. rewrite Heq. apply lookup_insert_eq.
Qed.

Lemma C9_id_is_the_draw_witness :
  connections (onConnection 2%nat (onConnection 1%nat blankState).2).2 !! "i"
    = Some 2%nat.
Proof.
  destruct (C9_id_is_the_draw 1%nat 2%nat blankState)
    as (st1 & st2 & Hrun1 & _ & _ & Hrun2 & _ & Hsame).
  rewrite Hrun1. cbn [snd]. rewrite Hrun2. cbn [snd].
  apply Hsame. reflexivity.
Defined.

(** ** Chat without an agent or without a portal *)



(** * Further properties of [ApiExtension] *)

(** ** Chat *)

(** X1: [POST /chat] refuses a missing or empty message with status 400 and
    does nothing else, whatever the agent's state. The WebSocket path has no
    such check: the data of a 'chat' frame on a registered connection, be it
    missing or empty, is passed to the portal as the user message. *)
Theorem chat_message_checked_on_http_only (chatRequest : ChatRequest)
    (connectionId : string) (ws : WebSocket) (data : option string)
    (a : Agent) (p : Portal) (st : State) :
  (truthy (chat_message chatRequest) = false ->
   postChat chatRequest st =
     (Ret tt, logResponse {| status := 400; body := ErrorBody "Message is required" |} st))
  ∧ (connections st !! connectionId = Some ws ->
     agent st = Some a -> portal a = Some p ->
     calls (handleWebSocketMessage connectionId (Message (Some "chat") data) st).2 =
       (calls st ++
          [CallGenerateChat [ {| role := "user"; content := data |} ] None])%list).
Proof.
  split.
  - intros Hmsg. unfold postChat. by rewrite Hmsg.
  - intros Hc Ha Hp. unfold handleWebSocketMessage, processChatMessage. unfold_M.
    rewrite Hc. simpl. rewrite Ha, Hp.
    by destruct (generateChat p _ _).
Qed.

Lemma chat_message_checked_on_http_only_witness :
  postChat {| chat_message := Some ""; chat_maxTokens := None; chat_sessionId := None |}
      (chatState echoPortal) =
    (Ret tt, logResponse {| status := 400; body := ErrorBody "Message is required" |}
               (chatState echoPortal))
  ∧ calls (handleWebSocketMessage "abc" (Message (Some "chat") None)
             (chatState echoPortal)).2 =
    [CallGenerateChat [ {| role := "user"; content := None |} ] None].
Proof.
  pose proof (chat_message_checked_on_http_only
                {| chat_message := Some ""; chat_maxTokens := None; chat_sessionId := None |}
                "abc" 7%nat None (agentWith echoPortal) echoPortal
                (chatState echoPortal)) as (Hhttp & Hws).
  split.
  - apply Hhttp. reflexivity.
  - apply Hws; [vm_compute; reflexivity | reflexivity | reflexivity].
Defined.

(** X2: with a portal, [POST /chat] answers 200 in both cases. When the
    portal answers after [d] ms, the reply carries its text, the request's
    session id, the tokens used and [processingTime = d]; when the portal
    fails after [d] ms, the reply is the text "Failed to process chat" with
    the session id and [processingTime = d], not an error status. *)
Theorem chat_through_portal (chatRequest : ChatRequest) (a : Agent) (p : Portal)
    (st : State) :
  truthy (chat_message chatRequest) = true ->
  agent st = Some a -> portal a = Some p ->
  let messages := [ {| role := "user"; content := chat_message chatRequest |} ] in
  let st1 := logCall (CallGenerateChat messages (chat_maxTokens chatRequest)) st in
  (∀ d r, generateChat p messages (chat_maxTokens chatRequest) = Resolves d r ->
     postChat chatRequest st =
       (Ret tt,
        logResponse
          {| status := 200;
             body := ChatBody
               {| response := message_content r;
                  sessionId := chat_sessionId chatRequest;
                  chat_timestamp := clock st + Z.of_N d;
                  metadata := Some {| tokensUsed := usage_totalTokens r;
                                      processingTime := Z.of_N d |} |} |}
          (advance d st1)))
  ∧ (∀ d err, generateChat p messages (chat_maxTokens chatRequest) = Rejects d err ->
     postChat chatRequest st =
       (Ret tt,
        logResponse
          {| status := 200;
             body := ChatBody
               {| response := "Failed to process chat";
                  sessionId := chat_sessionId chatRequest;
                  chat_timestamp := clock st + Z.of_N d;
                  metadata := Some {| tokensUsed := None;
                                      processingTime := Z.of_N d |} |} |}
          (advance d st1))).
Proof.
  intros Hmsg Ha Hp messages st1.
  split; intros d r Hrun; unfold postChat, processChatMessage; rewrite Hmsg;
    cbn [negb]; unfold_M; rewrite Ha, Hp; fold messages; rewrite Hrun; simpl;
    by rewrite Z.add_simpl_l.
Qed.

Lemma chat_through_portal_witness :
  postChat hello (chatState brokenPortal) =
    (Ret tt,
     logResponse
       {| status := 200;
          body := ChatBody
            {| response := "Failed to process chat"; sessionId := None;
               chat_timestamp := 1015;
               metadata := Some {| tokensUsed := None; processingTime := 15 |} |} |}
       (advance 15
          (logCall (CallGenerateChat [ {| role := "user"; content := Some "hello" |} ] None)
             (chatState brokenPortal)))).
Proof.
  refine (proj2 (chat_through_portal hello (agentWith brokenPortal) brokenPortal
                   (chatState brokenPortal) _ _ _) 15%N (ErrorObject "upstream down") _);
    reflexivity.
Defined.

(** ** Status codes of the routes *)



(** The action's result cannot be serialised: the handler's [catch] answers
    500, once. *)
Example unserializable_result_scenario :
  responses (route (PostAction {| action := "self"; parameters := None |}) cyclicState).2 =
    [ {| status := 500; body := ErrorBody "Failed to execute action" |} ].
Proof. by vm_compute. Qed.

(** ** Memory routes *)





(** ** Actions of disabled extensions *)

(** X6: the dispatch loop never reads an extension's [enabled] flag: two
    extension lists that agree on ids and actions give the same response and
    the same calls, so the action of a disabled extension is run like any
    other. *)
Theorem disabled_extensions_still_run (exts exts' : list Extension)
    (request : ActionRequest) (start : Z) (st : State) :
  sameActions exts exts' ->
  executeAction_loop exts request start st = executeAction_loop exts' request start st.
Proof.
  induction 1 as [|ext ext' exts exts' [Hid Hact] _ IH]; [done |].
  simpl. rewrite Hid, Hact.
  destruct (getProperty (actions ext') (action request)); [done | apply IH].
Qed.

Lemma disabled_extensions_still_run_witness :
  executeAction_loop [demoExtension] {| action := "slow"; parameters := None |} 1000
      demoState =
  executeAction_loop [disable demoExtension] {| action := "slow"; parameters := None |}
      1000 demoState.
Proof.
  apply disabled_extensions_still_run.
  repeat constructor.
Defined.

(** ** WebSocket callbacks *)

Lemma handleWebSocketMessage_never_raises (connectionId : string)
    (message : WebSocketMessage) (st : State) (err : Thrown) (st' : State) :
  handleWebSocketMessage connectionId message st ≠ (Throw err, st').
Proof.
  intros Hrun. destruct (connections st !! connectionId) as [ws|] eqn:Hc.
  - pose proof (handleWebSocketMessage_registered connectionId ws message st Hc)
      as Hframe.
    destruct (frameHangs message st);
      [destruct Hframe as (st1 & Hpend & _) | destruct Hframe as (st1 & reply & Hret & _)];
      congruence.
  - rewrite handleWebSocketMessage_unregistered in Hrun by done. discriminate.
Qed.

Lemma onMessage_parsed (connectionId : string) (ws : WebSocket)
    (message : WebSocketMessage) (st : State) :
  onMessage connectionId ws (Parsed message) st =
    handleWebSocketMessage connectionId message st.
Proof.
  unfold onMessage, jsonParse. unfold_M.
  destruct (handleWebSocketMessage connectionId message st) as [[v|err|] st'] eqn:Hrun;
    [done | | done].
  by apply handleWebSocketMessage_never_raises in Hrun.
Qed.

(** X7: the [message] callback of a socket answers a frame that is not JSON
    with [{error: 'Invalid message format'}] on that very socket, whether or
    not its connection id is still in the registry; a frame that parses is
    handled exactly as [handleWebSocketMessage] handles it, the callback's own
    [catch] never being reached; and JSON [null] on a registered connection
    is answered with [{error: 'Failed to process message'}]. *)
Theorem message_callback (connectionId : string) (ws ws' : WebSocket)
    (message : WebSocketMessage) (st : State) :
  onMessage connectionId ws Unparsable st =
    (Ret tt, logSend ws (ErrorMsg "Invalid message format") st)
  ∧ onMessage connectionId ws (Parsed message) st =
      handleWebSocketMessage connectionId message st
  ∧ (connections st !! connectionId = Some ws' ->
     onMessage connectionId ws (Parsed NullMessage) st =
       (Ret tt, logSend ws' (ErrorMsg "Failed to process message") st)).
Proof.
  split; [done |]. split.
  - apply onMessage_parsed.
  - intros Hc. rewrite onMessage_parsed. unfold handleWebSocketMessage. unfold_M.
    by rewrite Hc.
Qed.

Lemma message_callback_witness :
  onMessage "abc" 7%nat (Parsed NullMessage) demoState =
    (Ret tt, logSend 7%nat (ErrorMsg "Failed to process message") demoState).
Proof.
  refine (proj2 (proj2 (message_callback "abc" 7%nat 7%nat NullMessage demoState)) _).
  vm_compute. reflexivity.
Defined.

(** X8: a socket that has just connected can be reached under the id it was
    told: the welcome message carries the id under which the registry now
    holds the socket, and a ping sent under that id is answered with a pong
    on the same socket. *)
Theorem connect_then_ping (ws : WebSocket) (data : option string) (st : State) :
  ∃ connectionId st1,
    onConnection ws st = (Ret connectionId, st1)
    ∧ sent st1 = (sent st ++ [(ws, Welcome connectionId (clock st))])%list
    ∧ connections st1 !! connectionId = Some ws
    ∧ onMessage connectionId ws (Parsed (Message (Some "ping") data)) st1 =
        (Ret tt, logSend ws (Pong (clock st1)) st1).
Proof.
  do 2 eexists. split; [apply onConnection_run |].
  split; [reflexivity |].
  assert (connections
            (logSend ws (Welcome (slice 2 15 (random st (drawn st))) (clock st))
               (setConnections
                  (<[slice 2 15 (random st (drawn st)) := ws]> (connections st))
                  (nextDraw st)))
            !! slice 2 15 (random st (drawn st)) = Some ws) as Hc.
  { simpl. apply lookup_insert_eq. }
  split; [exact Hc |].
  rewrite onMessage_parsed. by apply handleWebSocketMessage_ping.
Qed.

Lemma twoConnected_registry (ws1 ws2 : WebSocket) (st : State) :
  connections (twoConnected ws1 ws2 st) =
    <[slice 2 15 (random st (S (drawn st))) := ws2]>
      (<[slice 2 15 (random st (drawn st)) := ws1]> (connections st)).
Proof. reflexivity. Qed.

(** X9: replies go to the socket found under the connection id, not to the
    socket the frame came from. When two sockets were given the same id
    (their draws render alike), a ping arriving on the first is answered
    with a pong on the second. *)
Theorem colliding_sockets_cross_deliver (ws1 ws2 : WebSocket)
    (data : option string) (st : State) :
  let id1 := slice 2 15 (random st (drawn st)) in
  let id2 := slice 2 15 (random st (S (drawn st))) in
  id1 = id2 ->
  onMessage id1 ws1 (Parsed (Message (Some "ping") data)) (twoConnected ws1 ws2 st) =
    (Ret tt,
     logSend ws2 (Pong (clock (twoConnected ws1 ws2 st))) (twoConnected ws1 ws2 st)).
Proof.
  intros id1 id2 Heq.
  rewrite onMessage_parsed. apply handleWebSocketMessage_ping.
  rewrite twoConnected_registry. fold id1 id2. rewrite <- Heq.
  apply lookup_insert_eq.
Qed.

Lemma colliding_sockets_cross_deliver_witness :
  onMessage "i" 1%nat (Parsed (Message (Some "ping") None))
      (twoConnected 1%nat 2%nat blankState) =
    (Ret tt,
     logSend 2%nat (Pong (clock (twoConnected 1%nat 2%nat blankState)))
       (twoConnected 1%nat 2%nat blankState)).
Proof.
  apply (colliding_sockets_cross_deliver 1%nat 2%nat None blankState).
  reflexivity.
Defined.

(** X10: when two sockets were given the same id, the [close] callback of
    either removes the one registry entry, and from then on every frame of
    the socket that is still open that parses is dropped without a reply;
    only a frame that is not JSON is still answered, with
    [{error: 'Invalid message format'}], on that socket. *)
Theorem colliding_sockets_close_together (ws1 ws2 : WebSocket)
    (message : WebSocketMessage) (st : State) :
  let id1 := slice 2 15 (random st (drawn st)) in
  let id2 := slice 2 15 (random st (S (drawn st))) in
  let closed := (onClose id1 (twoConnected ws1 ws2 st)).2 in
  id1 = id2 ->
  connections closed !! id2 = None
  ∧ onMessage id2 ws2 (Parsed message) closed = (Ret tt, closed)
  ∧ onMessage id2 ws2 Unparsable closed =
      (Ret tt, logSend ws2 (ErrorMsg "Invalid message format") closed).
Proof.
  intros id1 id2 closed Heq.
  assert (connections closed !! id2 = None) as Hgone.
  { subst closed. rewrite <- Heq. apply onClose_removes. }
  split; [exact Hgone |]. split; [| done].
  rewrite onMessage_parsed. by apply handleWebSocketMessage_unregistered.
Qed.

Lemma colliding_sockets_close_together_witness :
  connections (onClose "i" (twoConnected 1%nat 2%nat blankState)).2 !! "i" = None
  ∧ onMessage "i" 2%nat (Parsed (Message (Some "ping") None))
      (onClose "i" (twoConnected 1%nat 2%nat blankState)).2 =
    (Ret tt, (onClose "i" (twoConnected 1%nat 2%nat blankState)).2)
  ∧ onMessage "i" 2%nat Unparsable
      (onClose "i" (twoConnected 1%nat 2%nat blankState)).2 =
    (Ret tt, logSend 2%nat (ErrorMsg "Invalid message format")
               (onClose "i" (twoConnected 1%nat 2%nat blankState)).2).
Proof.
  apply (colliding_sockets_close_together 1%nat 2%nat (Message (Some "ping") None)
           blankState).
  reflexivity.
Defined.

(** X11: when the id drawn for a new connection is not yet in the registry,
    connecting adds exactly one entry and closing it again leaves the
    registry exactly as it was before. *)
Theorem connect_then_close_restores (ws : WebSocket) (st : State) :
  let connectionId := slice 2 15 (random st (drawn st)) in
  connections st !! connectionId = None ->
  connections (onClose connectionId (onConnection ws st).2).2 = connections st
  ∧ size (connections (onConnection ws st).2) = S (size (connections st)).
Proof.
  intros connectionId Hfresh. split.
  - simpl. fold connectionId. by apply delete_insert_id.
  - simpl. fold connectionId. by apply map_size_insert_None.
Qed.

Lemma connect_then_close_restores_witness :
  connections (onClose "i" (onConnection 1%nat demoState).2).2 = connections demoState
  ∧ size (connections (onConnection 1%nat demoState).2) = S (size (connections demoState)).
Proof.
  apply (connect_then_close_restores 1%nat demoState).
  vm_compute. reflexivity.
Defined.

(** X12: [getConnectionInfo] lists each registered connection once, with its
    id and the ready state of its socket, and changes nothing. The
    [connectedAt] of every entry is the time of the call, not the time at
    which the connection was made. *)
Theorem connection_info_lists_registry (readyState : WebSocket -> Z) (st : State) :
  ∃ infos,
    getConnectionInfo readyState st = (Ret infos, st)
    ∧ length infos = size (connections st)
    ∧ (∀ info, info ∈ infos <->
         ∃ ws, connections st !! info_id info = Some ws
               ∧ info_readyState info = readyState ws
               ∧ info_connectedAt info = clock st).
Proof.
  eexists. split; [reflexivity |]. split.
  - by rewrite length_fmap, length_map_to_list.
  - intros info. rewrite list_elem_of_fmap. split.
    + intros ([connectionId ws] & -> & Hin). apply elem_of_map_to_list in Hin.
      by exists ws.
    + intros (ws & Hc & Hready & Hat). exists (info_id info, ws). split.
      * destruct info. simpl in *. by subst.
      * by apply elem_of_map_to_list.
Qed.

(** ** Settings and status *)

(** X13: the settings are a shallow merge, so whenever authentication is on
    in the merged settings, the [auth] section came from [config.settings]
    as a whole and the secret in force is the one given there: neither
    [process.env.API_SECRET] nor the built-in "default-secret" ever guards an
    enabled auth stage. Without an [auth] section in the configuration no
    auth stage is installed and every request goes on to what follows. *)
Theorem enabled_auth_uses_configured_secret (API_SECRET : option string)
    (settings : option SettingsOverride) :
  (auth_enabled (constructSettings API_SECRET settings) = true ->
   ∃ s a, settings = Some s ∧ override_auth s = Some a ∧ au_enabled a = true
          ∧ auth_secret (constructSettings API_SECRET settings) = au_secret a
          ∧ ∀ other, authStage (constructSettings other settings) =
                     [authMiddleware (constructSettings API_SECRET settings)])
  ∧ (settings ≫= override_auth = None ->
     ∀ req next st,
       runMiddleware (authStage (constructSettings API_SECRET settings)) req next st =
       next st).
Proof.
  split.
  - unfold constructSettings. simpl.
    destruct settings as [s|]; simpl; [| discriminate].
    destruct (override_auth s) as [a|] eqn:Hauth; simpl; [| discriminate].
    intros Hen. exists s, a. repeat split; try done.
    intros other. unfold authStage, constructSettings. simpl.
    by rewrite Hen.
  - intros Hnone req next st. unfold authStage, constructSettings. simpl.
    by rewrite Hnone.
Qed.

Lemma enabled_auth_uses_configured_secret_witness :
  (∃ s a, withAuth "s3cret" = Some s ∧ override_auth s = Some a ∧ au_enabled a = true
          ∧ auth_secret (constructSettings (Some "from-env") (withAuth "s3cret")) =
            au_secret a
          ∧ ∀ other, authStage (constructSettings other (withAuth "s3cret")) =
                     [authMiddleware (constructSettings (Some "from-env") (withAuth "s3cret"))])
  ∧ runMiddleware (authStage (constructSettings (Some "from-env") None))
      (requestWith None) (route GetMemory) demoState = route GetMemory demoState.
Proof.
  split.
  - apply (enabled_auth_uses_configured_secret (Some "from-env") (withAuth "s3cret")).
    reflexivity.
  - apply (enabled_auth_uses_configured_secret (Some "from-env") None).
    reflexivity.
Defined.



(** ** The two denials of the auth middleware *)

(** X15: the auth middleware tells the two failures apart. A request with
    no [Authorization] header, or one that does not start with "Bearer "
    (the match is case sensitive), is answered 401 'Unauthorized'; a header
    "Bearer <token>" with a token other than the secret is answered 401
    'Invalid token'. In neither case is [next] called. *)
Theorem auth_denial_messages (apiConfig : ApiSettings) (req : HttpRequest)
    (next : M unit) (st : State) :
  (authorization req = None ->
   authMiddleware apiConfig req next st =
     (Ret tt, logResponse {| status := 401; body := ErrorBody "Unauthorized" |} st))
  ∧ (∀ header, authorization req = Some header ->
       String.prefix "Bearer " header = false ->
       authMiddleware apiConfig req next st =
         (Ret tt, logResponse {| status := 401; body := ErrorBody "Unauthorized" |} st))
  ∧ (∀ token, authorization req = Some ("Bearer " +:+ token) ->
       token ≠ auth_secret apiConfig ->
       authMiddleware apiConfig req next st =
         (Ret tt, logResponse {| status := 401; body := ErrorBody "Invalid token" |} st)).
Proof.
  unfold authMiddleware. split; [| split].
  - by intros ->.
  - intros header -> Hpre. rewrite Hpre. by rewrite orb_true_r.
  - intros token -> Hdiff.
    change 7%nat with (String.length "Bearer ").
    rewrite substringFrom_append, prefix_append.
    destruct (String.eqb_spec token (auth_secret apiConfig)); [done |].
    reflexivity.
Qed.

Lemma auth_denial_messages_witness :
  authMiddleware secured (requestWith (Some "bearer secret")) (route GetMemory) demoState =
    (Ret tt, logResponse {| status := 401; body := ErrorBody "Unauthorized" |} demoState)
  ∧ authMiddleware secured (requestWith (Some "Bearer Secret")) (route GetMemory) demoState =
    (Ret tt, logResponse {| status := 401; body := ErrorBody "Invalid token" |} demoState).
Proof.
  split.
  - refine (proj1 (proj2 (auth_denial_messages secured (requestWith (Some "bearer secret"))
                            (route GetMemory) demoState)) "bearer secret" _ _);
      reflexivity.
  - refine (proj2 (proj2 (auth_denial_messages secured (requestWith (Some "Bearer Secret"))
                            (route GetMemory) demoState)) "Secret" _ _).
    + reflexivity.
    + vm_compute. discriminate.
Defined.

(** * Properties of the Telegram [MessagingSkill] *)

Lemma guarded_outcome {ErrorType A} (this : SkillContext ErrorType)
    (call : Telegram -> Settle A) (ok : A -> SkillData) :
  (∃ d r, guarded this call ok = Resolves d r ∧ builtBy this r)
  ∨ guarded this call ok = NeverSettles.
Proof.
  unfold guarded, builtBy. destruct (getBot this) as [err|bot].
  - left. do 2 eexists. split; [reflexivity |]. right. by eexists.
  - destruct (call bot) as [d r|d err|].
    + left. do 2 eexists. split; [reflexivity |]. left. by eexists.
    + left. do 2 eexists. split; [reflexivity |]. right. by eexists.
    + by right.
Qed.


(** Each action of [getActions] runs one of the five methods on the fields
    of its parameters, and rejects when given none. *)
Lemma getActions_lookup {ErrorType} (this : SkillContext ErrorType) (name : string)
    (act : ExtensionAction) :
  getActions this !! name = Some act ->
  (∀ params, ∃ A (call : Telegram -> Settle A) (ok : A -> SkillData),
      execute act (Some params) = guarded this call ok)
  ∧ ∃ err, execute act None = Rejects 0 err.
Proof.
  unfold getActions. intros Hact.
  repeat (rewrite lookup_insert in Hact; case_decide;
          [injection Hact as <-; simpl;
           split; [intros params; by do 3 eexists | by eexists] |]).
  by rewrite lookup_empty in Hact.
Qed.


(** X17: through the API, a failure of a Telegram action never comes back as
    the message of a caught error: when the action found for a request is one
    of [getActions], [executeAction] either stays pending with the action or
    returns the fields of a result made by the skill's own builders. *)
Theorem telegram_action_through_api {ErrorType} (this : SkillContext ErrorType)
    (a : Agent) (before after : list Extension) (ext : Extension)
    (act : ExtensionAction) (request : ActionRequest) (st : State) :
  agent st = Some a ->
  extensions a = (before ++ ext :: after)%list ->
  unregistered (action request) before ->
  actions ext = getActions this ->
  getActions this !! action request = Some act ->
  let st1 := logCall (CallExecute (ext_id ext) (action request)
                        (default ∅ (parameters request))) st in
  (∃ d r, builtBy this r
          ∧ executeAction request st =
              (Ret {| success := res_success r; result := res_result r;
                      error := res_error r; executionTime := Z.of_N d |},
               advance d st1))
  ∨ executeAction request st = (Pending, st1).
Proof.
  intros Ha Hexts Hnone Hactions Hact st1.
  assert (actions ext !! action request = Some act) as Hown by by rewrite Hactions.
  rewrite (executeAction_found a before after ext act) by done.
  unfold actionOutcome. fold st1.
  destruct (getActions_lookup this (action request) act Hact) as (Hsome & _).
  destruct (Hsome (default ∅ (parameters request))) as (A & call & ok & ->).
  destruct (guarded_outcome this call ok) as [(d & r & -> & Hbuilt) | ->].
  - left. exists d, r. split; [done |]. by rewrite Z.add_simpl_l.
  - by right.
Qed.




Lemma telegram_action_through_api_witness :
  (∃ d r, builtBy runningSkill r
          ∧ executeAction {| action := "sendMessage"; parameters := None |} telegramState =
              (Ret {| success := res_success r; result := res_result r;
                      error := res_error r; executionTime := Z.of_N d |},
               advance d (logCall (CallExecute "telegram" "sendMessage" ∅) telegramState)))
  ∨ executeAction {| action := "sendMessage"; parameters := None |} telegramState =
      (Pending, logCall (CallExecute "telegram" "sendMessage" ∅) telegramState).
Proof.
  refine (telegram_action_through_api runningSkill _ [] [] telegramExtension
            (sendAction runningSkill)
            {| action := "sendMessage"; parameters := None |} telegramState _ _ _ _ _).
  - reflexivity.
  - reflexivity.
  - constructor.
  - reflexivity.
  - vm_compute. reflexivity.
Defined.


(** With "HTML" as parse mode, notifications not disabled and a reply id of
    0, only the parse mode is forwarded. *)
Example send_options_scenario :
  sendOptions (Some (JStr "HTML")) None (Some (JBool false)) (Some (JNum 0)) =
    {[ "parse_mode" := JStr "HTML" ]}.
Proof. by vm_compute. Qed.

(** * Shape of the connection ids *)

Lemma substring_length_le (n m : nat) (s : string) :
  (String.length (String.substring n m s) ≤ m)%nat.
Proof.
  revert n m. induction s as [|c s IH]; intros n m.
  - destruct n, m; simpl; lia.
  - destruct n as [|n]; [destruct m as [|m] |]; simpl.
    + lia.
    + specialize (IH 0%nat m). lia.
    + apply IH.
Qed.

Lemma substring_beyond (n m : nat) (s : string) :
  (String.length s ≤ n)%nat -> String.substring n m s = "".
Proof.
  revert n. induction s as [|c s IH]; intros n Hlen.
  - by destruct n, m.
  - destruct n as [|n]; simpl in *; [lia |]. apply IH. lia.
Qed.

(** X19: a connection id has at most 13 characters, and it is the empty
    string when the random draw renders in fewer than three characters (a
    draw of 0 renders as "0"): the socket is then registered under the empty
    id. *)
Theorem connection_id_shape (ws : WebSocket) (st : State) :
  let connectionId := slice 2 15 (random st (drawn st)) in
  (onConnection ws st).1 = Ret connectionId
  ∧ (String.length connectionId ≤ 13)%nat
  ∧ ((String.length (random st (drawn st)) ≤ 2)%nat ->
     connectionId = "" ∧ connections (onConnection ws st).2 !! "" = Some ws).
Proof.
  intros connectionId. split; [reflexivity |]. split.
  - apply substring_length_le.
  - intros Hshort.
    assert (connectionId = "") as Hid by by apply substring_beyond.
    split; [exact Hid |]. simpl. fold connectionId. rewrite Hid.
    apply lookup_insert_eq.
Qed.

Lemma connection_id_shape_witness :
  slice 2 15 "0" = ""
  ∧ connections (onConnection 1%nat (initialState None ∅ "0")).2 !! "" = Some 1%nat.
Proof.
  refine (proj2 (proj2 (connection_id_shape 1%nat (initialState None ∅ "0"))) _).
  vm_compute. lia.
Defined.
